(** * Verification of [create-icons.py]

    A shallow embedding of the icon script: Python's numbers (unbounded
    integers, IEEE-754 binary64 floats), the Pillow canvas it draws on, the
    font loader with its fallback, and the top-level driver that writes the
    two PNG files.  Geometry is computed exactly as the script computes it,
    through correctly rounded binary64 operations. *)

From Stdlib Require Import ZArith QArith Qround Qpower Lia Lqa Bool List Ascii String.
From Stdlib Require Import Floats.SpecFloat.
From stdpp Require Import base option strings gmap.

Local Open Scope Z_scope.

(* ===================================================================== *)
(** * Python values and exceptions *)
(* ===================================================================== *)

(** The exceptions the script can meet. *)
Inductive exn : Type :=
  | OverflowError
  | ZeroDivisionError
  | ValueError
  | MemoryError
  | OSError
  | FileExistsError
  | FileNotFoundError
  | NotADirectoryError
  | IsADirectoryError.

Inductive result (A : Type) : Type :=
  | Ok (a : A)
  | Raise (e : exn).
Arguments Ok {A} a.
Arguments Raise {A} e.

#[global] Instance result_ret : MRet result := fun _ a => Ok a.
#[global] Instance result_bind : MBind result := fun _ _ f m =>
  match m with
  | Ok a => f a
  | Raise e => Raise e
  end.

(** [try m except: h] with a bare [except], which catches everything. *)
Definition try_except {A} (m : result A) (h : result A) : result A :=
  match m with
  | Ok a => Ok a
  | Raise _ => h
  end.

Definition is_ok {A} (r : result A) : bool :=
  match r with Ok _ => true | Raise _ => false end.

(* ===================================================================== *)
(** * binary64 arithmetic *)
(* ===================================================================== *)

Module Float64.

Definition prec : Z := 53.
Definition emax : Z := 1024.

(** An integer as an exact, not yet rounded, binary number. *)
Definition exact (n : Z) : spec_float :=
  match n with
  | Z0 => S754_zero false
  | Zpos p => S754_finite false p 0
  | Zneg p => S754_finite true p 0
  end.

(** [float(n)]: the binary64 nearest to the integer [n]. *)
Definition of_int (n : Z) : spec_float := binary_normalize prec emax n 0 false.

(** Correctly rounded quotient of two integers. *)
Definition quotient (a b : Z) : spec_float := SFdiv prec emax (exact a) (exact b).

Definition mul (x y : spec_float) : spec_float := SFmul prec emax x y.

(** Truncation toward zero of a finite float. *)
Definition trunc (x : spec_float) : option Z :=
  match x with
  | S754_zero _ => Some 0
  | S754_finite s m e =>
      let a := if 0 <=? e then Zpos m * 2 ^ e else Zpos m / 2 ^ (- e) in
      Some (if s then - a else a)
  | S754_infinity _ | S754_nan => None
  end.

Definition is_finite (x : spec_float) : bool :=
  match x with
  | S754_zero _ | S754_finite _ _ _ => true
  | _ => false
  end.

(** The rational a finite float stands for. *)
Definition to_Q (x : spec_float) : Q :=
  match x with
  | S754_finite s m e =>
      let v := (inject_Z (Zpos m) * Qpower 2 e)%Q in
      if s then Qopp v else v
  | _ => 0%Q
  end.

End Float64.

(** ** Python's operators on [int] and [float] *)

(** [a / b] on two integers: true division, correctly rounded. *)
Definition py_truediv (a b : Z) : result spec_float :=
  if b =? 0 then Raise ZeroDivisionError
  else
    let q := Float64.quotient a b in
    if Float64.is_finite q then Ok q else Raise OverflowError.

(** Conversion of an [int] operand meeting a [float]. *)
Definition py_float (n : Z) : result spec_float :=
  let x := Float64.of_int n in
  if Float64.is_finite x then Ok x else Raise OverflowError.

(** [n * x] with [n] an [int] and [x] a [float]. *)
Definition py_mul (n : Z) (x : spec_float) : result spec_float :=
  f ← py_float n; Ok (Float64.mul f x).

(** [int(x)] on a float. *)
Definition py_int (x : spec_float) : result Z :=
  match Float64.trunc x with
  | Some n => Ok n
  | None => match x with S754_nan => Raise ValueError | _ => Raise OverflowError end
  end.

(** The float literals of the script: the binary64 nearest to the decimal. *)
Definition lit_1_2 : spec_float := Eval vm_compute in Float64.quotient 12 10.
Definition lit_0_6 : spec_float := Eval vm_compute in Float64.quotient 6 10.
Definition lit_0_7 : spec_float := Eval vm_compute in Float64.quotient 7 10.

(** [int(k * scale)], the script's scaled measurements. *)
Definition scaled (k : Z) (scale : spec_float) : result Z :=
  x ← py_mul k scale; py_int x.

(** [int(n * c)] for an integer [n] and a float literal [c]. *)
Definition int_times (n : Z) (c : spec_float) : result Z :=
  x ← py_mul n c; py_int x.


(* ===================================================================== *)
(** * The Pillow canvas *)
(* ===================================================================== *)

(** A pixel of an RGBA image: red, green, blue, alpha, each in 0..255. *)
Definition color : Type := (Z * Z * Z * Z)%type.

Definition color_eqb (c d : color) : bool :=
  let '(r1, g1, b1, a1) := c in
  let '(r2, g2, b2, a2) := d in
  (r1 =? r2) && (g1 =? g2) && (b1 =? b2) && (a1 =? a2).

(** An image buffer: its mode, its size and its pixels.  Only the
    coordinates inside [0, width) x [0, height) belong to the buffer;
    [getpixel] is the way to read it. *)
Record image : Type := {
  im_mode : string;
  im_width : Z;
  im_height : Z;
  im_data : Z -> Z -> color
}.

(** The sizes the imaging library takes: a side is passed as a C [int],
    and a line of more than [max_line] pixels is refused. *)
Definition int_limit : Z := 2 ^ 31.
Definition max_line : Z := (int_limit - 1) / 4 - 1.

(** [Image.new(mode, (w, h), color)].  A negative side is refused with
    [ValueError]; a side that does not fit a C [int] raises
    [OverflowError]; a line too long for the library raises [MemoryError].
    Below these limits the outcome depends on the memory of the host, which
    is not modelled: there the buffer is taken to be allocated. *)
Definition Image_new (mode : string) (w h : Z) (c : color) : result image :=
  if (w <? 0) || (h <? 0) then Raise ValueError
  else if (int_limit <=? w) || (int_limit <=? h) then Raise OverflowError
  else if max_line <? w then Raise MemoryError
  else Ok {| im_mode := mode; im_width := w; im_height := h; im_data := fun _ _ => c |}.

Definition in_canvas (im : image) (x y : Z) : bool :=
  (0 <=? x) && (x <? im_width im) && (0 <=? y) && (y <? im_height im).

Definition getpixel (im : image) (x y : Z) : option color :=
  if in_canvas im x y then Some (im_data im x y) else None.

(** A box [x0, y0, x1, y1] as [ImageDraw] takes it: both ends included. *)
Record rect : Type := { x0 : Z; y0 : Z; x1 : Z; y1 : Z }.

Definition in_rect (r : rect) (x y : Z) : bool :=
  (x0 r <=? x) && (x <=? x1 r) && (y0 r <=? y) && (y <=? y1 r).

Definition on_edge (r : rect) (x y : Z) : bool :=
  (x =? x0 r) || (x =? x1 r) || (y =? y0 r) || (y =? y1 r).

(** [draw.rectangle(box, fill=fill, outline=outline)]: the box is filled,
    then its one-pixel border is drawn in the outline colour.  A box whose
    second corner lies before the first is refused. *)
Definition draw_rectangle (r : rect) (fill : color) (outline : option color)
    (im : image) : result image :=
  if (x1 r <? x0 r) || (y1 r <? y0 r) then Raise ValueError
  else Ok {| im_mode := im_mode im; im_width := im_width im; im_height := im_height im;
             im_data := fun x y =>
               if in_rect r x y then
                 match outline with
                 | Some o => if on_edge r x y then o else fill
                 | None => fill
                 end
               else im_data im x y |}.

(** ** Fonts and text *)

(** A loaded font, as far as the script uses it: the bounding box of a text
    anchored at the origin, and the coverage (0..255) its glyphs give to the
    pixel at an offset from the anchor. *)
Record font : Type := {
  font_bbox : string -> Z * Z * Z * Z;
  font_mask : string -> Z -> Z -> Z
}.

(** The font system of the host: [ImageFont.truetype], which may fail, and
    [ImageFont.load_default]. *)
Record font_env : Type := {
  truetype : string -> Z -> result font;
  load_default : font
}.

Definition div255 (a : Z) : Z := let t := a + 128 in (t / 256 + t) / 256.

(** One channel of a pixel painted through a coverage mask. *)
Definition blend (mask old ink : Z) : Z := div255 (old * (255 - mask) + ink * mask).

Definition coverage (f : font) (text : string) (dx dy : Z) : Z :=
  Z.max 0 (Z.min 255 (font_mask f text dx dy)).

Definition blend_color (mask : Z) (old ink : color) : color :=
  let '(r, g, b, a) := old in
  let '(ir, ig, ib, ia) := ink in
  (blend mask r ir, blend mask g ig, blend mask b ib, blend mask a ia).

(** [draw.text((x, y), text, fill=fill, font=f)]. *)
Definition draw_text (x y : Z) (text : string) (fill : color) (f : font)
    (im : image) : image :=
  {| im_mode := im_mode im; im_width := im_width im; im_height := im_height im;
     im_data := fun px py =>
       blend_color (coverage f text (px - x) (py - y)) (im_data im px py) fill |}.

(** [draw.textbbox((0, 0), text, font=f)]. *)
Definition textbbox (f : font) (text : string) : Z * Z * Z * Z := font_bbox f text.

(* ===================================================================== *)
(** * [create_receipt_icon] *)
(* ===================================================================== *)

Definition background : color := (26, 26, 30, 255).
Definition white : color := (255, 255, 255, 255).
Definition light_gray : color := (200, 200, 200, 255).
Definition blue : color := (0, 122, 255, 255).
Definition shadow : color := (0, 0, 0, 100).

(** The paper of the receipt. *)
Record paper : Type := {
  paper_margin : Z;
  paper_width : Z;
  paper_height : Z;
  paper_y : Z
}.

Definition paper_geometry (size : Z) (scale : spec_float) : result paper :=
  paper_margin ← scaled 24 scale;
  let paper_width := size - 2 * paper_margin in
  paper_height ← int_times paper_width lit_1_2;
  let paper_y := (size - paper_height) / 2 in
  Ok {| paper_margin := paper_margin; paper_width := paper_width;
        paper_height := paper_height; paper_y := paper_y |}.

Definition paper_rect (p : paper) : rect :=
  {| x0 := paper_margin p; y0 := paper_y p;
     x1 := paper_margin p + paper_width p; y1 := paper_y p + paper_height p |}.

(** The measurements of the receipt lines, taken before the loop. *)
Record lines : Type := {
  line_spacing : Z;
  line_margin : Z;
  line_start : Z
}.

Definition line_geometry (p : paper) (scale : spec_float) : result lines :=
  line_spacing ← scaled 16 scale;
  line_margin ← scaled 12 scale;
  i20 ← scaled 20 scale;
  Ok {| line_spacing := line_spacing; line_margin := line_margin;
        line_start := paper_y p + i20 |}.

(** The loop [for i in range(6)], over the indices still to visit.  [draw]
    is what the body does with the box of a line; the loop leaves at the
    first index whose [y] is too low on the paper. *)
Fixpoint receipt_lines {S : Type} (draw : rect -> S -> result S)
    (scale : spec_float) (p : paper) (l : lines) (range : list Z) (st : S)
    : result S :=
  match range with
  | [] => Ok st
  | i :: rest =>
      let y := line_start l + i * line_spacing l in
      i40 ← scaled 40 scale;
      if y >? paper_y p + paper_height p - i40 then Ok st
      else
        let line_width := paper_width p - 2 * line_margin l in
        line_width ← (if i =? 4 then int_times line_width lit_0_6 else Ok line_width);
        i2 ← scaled 2 scale;
        st' ← draw {| x0 := paper_margin p + line_margin l; y0 := y;
                      x1 := paper_margin p + line_margin l + line_width;
                      y1 := y + i2 |} st;
        receipt_lines draw scale p l rest st'
  end.

Definition range6 : list Z := [0; 1; 2; 3; 4; 5].

(** The scan button. *)
Definition button_rect (p : paper) (scale : spec_float) : result rect :=
  button_width ← int_times (paper_width p) lit_0_7;
  button_height ← scaled 20 scale;
  let button_x := paper_margin p + (paper_width p - button_width) / 2 in
  i35 ← scaled 35 scale;
  let button_y := paper_y p + paper_height p - i35 in
  Ok {| x0 := button_x; y0 := button_y;
        x1 := button_x + button_width; y1 := button_y + button_height |}.

(** The [try] block and its bare [except]. *)
Definition select_font (env : font_env) (scale : spec_float) : result font :=
  try_except
    (font_size ← scaled 48 scale; truetype env "arial.ttf" font_size)
    (Ok (load_default env)).

(** Where the letter goes. *)
Definition text_origin (size : Z) (scale : spec_float) (f : font) : result (Z * Z) :=
  let '(bx0, by0, bx1, by1) := textbbox f "R" in
  let text_width := bx1 - bx0 in
  let text_height := by1 - by0 in
  let text_x := (size - text_width) / 2 in
  i10 ← scaled 10 scale;
  let text_y := (size - text_height) / 2 - i10 in
  Ok (text_x, text_y).

Definition create_receipt_icon (env : font_env) (size : Z) : result image :=
  img ← Image_new "RGBA" size size background;
  scale ← py_truediv size 192;
  p ← paper_geometry size scale;
  img ← draw_rectangle (paper_rect p) white (Some light_gray) img;
  l ← line_geometry p scale;
  img ← receipt_lines (fun r => draw_rectangle r background None) scale p l range6 img;
  b ← button_rect p scale;
  img ← draw_rectangle b blue None img;
  f ← select_font env scale;
  '(text_x, text_y) ← text_origin size scale f;
  let img := draw_text (text_x + 2) (text_y + 2) "R" shadow f img in
  let img := draw_text text_x text_y "R" blue f img in
  Ok img.

(** The boxes of the lines the loop draws, in order. *)
Definition drawn_lines (scale : spec_float) (p : paper) (l : lines) : result (list rect) :=
  receipt_lines (fun r acc => Ok (acc ++ [r])) scale p l range6 [].

(* ===================================================================== *)
(** * The file system, standard output and the driver *)
(* ===================================================================== *)

(** What a path names: a directory, or a file holding an encoded image. *)
Inductive node : Type :=
  | Directory
  | File (format : string) (content : image).

(** The part of the host the driver touches.  Paths are relative to the
    working directory, which is a directory and is named by the empty path. *)
Record world : Type := {
  fs : gmap string node;
  stdout : list string
}.

(** Statements of the driver: they change the world and may raise. *)
Definition io (A : Type) : Type := world -> result A * world.

#[global] Instance io_ret : MRet io := fun _ a w => (Ok a, w).
#[global] Instance io_bind : MBind io := fun _ _ f m w =>
  match m w with
  | (Ok a, w') => f a w'
  | (Raise e, w') => (Raise e, w')
  end.

Definition lift {A} (r : result A) : io A := fun w => (r, w).

(** ** Paths *)

Fixpoint split_slash (s : string) : list string :=
  match s with
  | EmptyString => [EmptyString]
  | String c rest =>
      if Ascii.eqb c "/"%char then EmptyString :: split_slash rest
      else match split_slash rest with
           | [] => [String c EmptyString]
           | h :: t => String c h :: t
           end
  end.

Definition join_slash (l : list string) : string := String.concat "/" l.

(** [os.path.dirname] of a path given by its components, last one first. *)
Definition parent_of (rname : list string) : string := join_slash (rev (tl rname)).

Definition lookup_dir (w : world) (path : string) : option node :=
  if String.eqb path EmptyString then Some Directory else fs w !! path.

Definition path_exists (path : string) : io bool := fun w =>
  (Ok (bool_decide (is_Some (lookup_dir w path))), w).

Definition path_isdir (path : string) : io bool := fun w =>
  (Ok (match lookup_dir w path with Some Directory => true | _ => false end), w).

(** ** [os.mkdir] and [os.makedirs] *)

Definition os_mkdir (rname : list string) : io unit := fun w =>
  let name := join_slash (rev rname) in
  match lookup_dir w name with
  | Some _ => (Raise FileExistsError, w)
  | None =>
      match lookup_dir w (parent_of rname) with
      | Some Directory =>
          (Ok (), {| fs := <[name := Directory]> (fs w); stdout := stdout w |})
      | Some (File _ _) => (Raise NotADirectoryError, w)
      | None => (Raise FileNotFoundError, w)
      end
  end.

(** [try: m  except ...: h e], for statements. *)
Definition io_try {A} (m : io A) (h : exn -> io A) : io A := fun w =>
  match m w with
  | (Ok a, w') => (Ok a, w')
  | (Raise e, w') => h e w'
  end.

(** [os.makedirs(name, exist_ok=exist_ok)], on the components of [name],
    last one first: missing ancestors are made first, then the leaf, and an
    existing directory is accepted when [exist_ok] is set. *)
Fixpoint makedirs_rev (exist_ok : bool) (rname : list string) : io unit :=
  match rname with
  | [] => lift (Raise FileNotFoundError)
  | tail :: rhead =>
      let head := join_slash (rev rhead) in
      (if negb (String.eqb head EmptyString) && negb (String.eqb tail EmptyString) then
         e ← path_exists head;
         if e : bool then mret ()
         else io_try (makedirs_rev exist_ok rhead)
                (fun e => match e with
                          | FileExistsError => mret ()
                          | _ => lift (Raise e)
                          end)
       else mret ());;
      io_try (os_mkdir rname)
        (fun e =>
           d ← path_isdir (join_slash (rev rname));
           if negb exist_ok || negb d then lift (Raise e) else mret ())
  end.

Definition os_makedirs (name : string) (exist_ok : bool) : io unit :=
  makedirs_rev exist_ok (rev (split_slash name)).

(** ** [Image.save] and [print] *)

(** [img.save(path, format)]: the file is opened for writing and receives
    the encoded image. *)
Definition Image_save (img : image) (path : string) (format : string) : io unit := fun w =>
  match lookup_dir w path with
  | Some Directory => (Raise IsADirectoryError, w)
  | _ =>
      match lookup_dir w (parent_of (rev (split_slash path))) with
      | Some Directory =>
          (Ok (), {| fs := <[path := File format img]> (fs w); stdout := stdout w |})
      | Some (File _ _) => (Raise NotADirectoryError, w)
      | None => (Raise FileNotFoundError, w)
      end
  end.

Definition print (line : string) : io unit := fun w =>
  (Ok (), {| fs := fs w; stdout := stdout w ++ [line] |}).

(** ** The script's top level *)

Definition main (env : font_env) : io unit :=
  os_makedirs "public/icons" true;;
  icon_192 ← lift (create_receipt_icon env 192);
  Image_save icon_192 "public/icons/icon-192.png" "PNG";;
  icon_512 ← lift (create_receipt_icon env 512);
  Image_save icon_512 "public/icons/icon-512.png" "PNG";;
  print "Icons created successfully!".

(* ===================================================================== *)
(** * Vocabulary of the proofs *)
(* ===================================================================== *)

Definition located (m : Z) (l : location) (X : Q) : Prop :=
  match l with
  | loc_Exact => (X == inject_Z m)%Q
  | loc_Inexact Lt => (inject_Z m < X /\ X < inject_Z m + (1#2))%Q
  | loc_Inexact Eq => (X == inject_Z m + (1#2))%Q
  | loc_Inexact Gt => (inject_Z m + (1#2) < X /\ X < inject_Z m + 1)%Q
  end.

Definition u53 : Q := 1 # 9007199254740992.

Definition near (v x : Q) : Prop := (v * (1 - u53) <= x /\ x <= v * (1 + u53))%Q.

Definition normal (f : spec_float) : Prop :=
  exists (m : positive) (e : Z),
    f = S754_finite false m e /\ 2 ^ 52 <= Zpos m < 2 ^ 53 /\ -100 <= e <= 971.

Definition tiny : Q := 1 # 1099511627776.   (* 2^-40 *)
Definition huge : Q := inject_Z (2 ^ 1023).

Definition rounded (x : Q) (f : spec_float) : Prop :=
  (normal f /\ near (Float64.to_Q f) x) \/ (f = S754_infinity false /\ (huge <= x)%Q).

(** [r] is the integer part of a float that approximates [x] within a few roundings. *)
Definition about (r : Z) (x : Q) : Prop :=
  0 <= r /\ (x * (1 - 4 * u53) - 1 < inject_Z r /\ inject_Z r <= x * (1 + 4 * u53))%Q.

Definition C12 : Q := 5404319552844595 # 4503599627370496.
Definition C06 : Q := 5404319552844595 # 9007199254740992.
Definition C07 : Q := 6305039478318694 # 9007199254740992.

Definition paper_ok (size : Z) (s : spec_float) (p : paper) : Prop :=
  scaled 24 s = Ok (paper_margin p) /\
  paper_width p = size - 2 * paper_margin p /\
  int_times (paper_width p) lit_1_2 = Ok (paper_height p) /\
  paper_y p = (size - paper_height p) / 2.

Definition lines_ok (s : spec_float) (p : paper) (l : lines) : Prop :=
  scaled 16 s = Ok (line_spacing l) /\
  scaled 12 s = Ok (line_margin l) /\
  exists i20, scaled 20 s = Ok i20 /\ line_start l = paper_y p + i20.

(** The box of line [i], once the width [lw] and the thickness [i2] are known. *)
Definition line_rect (p : paper) (l : lines) (i2 lw i : Z) : rect :=
  {| x0 := paper_margin p + line_margin l;
     y0 := line_start l + i * line_spacing l;
     x1 := paper_margin p + line_margin l + lw;
     y1 := line_start l + i * line_spacing l + i2 |}.

Definition full_width (p : paper) (l : lines) : Z := paper_width p - 2 * line_margin l.

Definition line_width_at (p : paper) (l : lines) (w4 i : Z) : Z :=
  if i =? 4 then w4 else full_width p l.

(** Drawing a list of boxes one after the other. *)
Fixpoint draw_all {S : Type} (draw : rect -> S -> result S) (rs : list rect) (st : S)
    : result S :=
  match rs with
  | [] => Ok st
  | r :: rest => st' ← draw r st; draw_all draw rest st'
  end.

Definition well_formed (r : rect) : Prop := x0 r <= x1 r /\ y0 r <= y1 r.

Definition inside_columns (outer r : rect) : Prop :=
  x0 outer <= x0 r /\ x1 r <= x1 outer.

Definition inside (outer r : rect) : Prop :=
  x0 outer <= x0 r /\ x1 r <= x1 outer /\ y0 outer <= y0 r /\ y1 r <= y1 outer.

Definition button_ok (s : spec_float) (p : paper) (b : rect) : Prop :=
  exists bw bh i35,
    int_times (paper_width p) lit_0_7 = Ok bw /\ scaled 20 s = Ok bh /\ scaled 35 s = Ok i35
    /\ b = {| x0 := paper_margin p + (paper_width p - bw) / 2;
              y0 := paper_y p + paper_height p - i35;
              x1 := paper_margin p + (paper_width p - bw) / 2 + bw;
              y1 := paper_y p + paper_height p - i35 + bh |}.

Definition line_boxes (p : paper) (l : lines) (i2 w4 : Z) : list rect :=
  map (fun i => line_rect p l i2 (line_width_at p l w4 i) i) range6.

(** What a completed call of [create_receipt_icon] has gone through. *)
Inductive rendered (env : font_env) (size : Z) : image -> Prop :=
  | Rendered (s : spec_float) (p : paper) (l : lines) (i40 i2 w4 : Z) (b : rect)
      (f : font) (tx ty : Z) (img0 img1 img2 img3 : image) :
      py_truediv size 192 = Ok s ->
      Image_new "RGBA" size size background = Ok img0 ->
      paper_ok size s p ->
      draw_rectangle (paper_rect p) white (Some light_gray) img0 = Ok img1 ->
      lines_ok s p l ->
      scaled 40 s = Ok i40 -> scaled 2 s = Ok i2 ->
      int_times (full_width p l) lit_0_6 = Ok w4 ->
      draw_all (fun r => draw_rectangle r background None) (line_boxes p l i2 w4) img1 = Ok img2 ->
      button_ok s p b ->
      draw_rectangle b blue None img2 = Ok img3 ->
      select_font env s = Ok f ->
      text_origin size s f = Ok (tx, ty) ->
      rendered env size
        (draw_text tx ty "R" blue f (draw_text (tx + 2) (ty + 2) "R" shadow f img3)).

Definition ks : list Z := [2; 10; 12; 16; 20; 24; 35; 40; 48].

(** Rounding to the nearest integer, the usual reading of [round]. *)
Definition round_nearest (x : Q) : Z := Qfloor (x + (1 # 2)).

(** The longest prefix of a list whose elements all pass a test. *)
Fixpoint prefix_while {A : Type} (test : A -> bool) (xs : list A) : list A :=
  match xs with
  | [] => []
  | x :: rest => if test x then x :: prefix_while test rest else []
  end.

(** Whether line [i] is still high enough on the paper to be drawn. *)
Definition in_reach (p : paper) (l : lines) (i40 i : Z) : bool :=
  negb (line_start l + i * line_spacing l >? paper_y p + paper_height p - i40).

(** The four corners of a canvas of the given size. *)
Definition corners (size : Z) : list (Z * Z) :=
  [(0, 0); (size - 1, 0); (0, size - 1); (size - 1, size - 1)].

(** The letter and its shadow leave the pixel [(x, y)] untouched. *)
Definition glyph_clear (env : font_env) (size x y : Z) : Prop :=
  forall s f tx ty,
    py_truediv size 192 = Ok s -> select_font env s = Ok f ->
    text_origin size s f = Ok (tx, ty) ->
    coverage f "R" (x - (tx + 2)) (y - (ty + 2)) = 0 /\ coverage f "R" (x - tx) (y - ty) = 0.

(** Two attempts to load a font end the same way. *)
Definition same_outcome (a b : result font) : Prop :=
  match a, b with
  | Ok f, Ok g => f = g
  | Raise _, Raise _ => True
  | _, _ => False
  end.


(** A bitmap font whose every glyph is a solid box of 6 by 8 pixels. *)
Definition box_font : font :=
  {| font_bbox := fun _ => (0, 2, 6, 10);
     font_mask := fun _ dx dy =>
       if (0 <=? dx) && (dx <? 6) && (2 <=? dy) && (dy <? 10) then 255 else 0 |}.

(** A host without any scalable font. *)
Definition no_truetype : font_env :=
  {| truetype := fun _ _ => Raise OSError; load_default := box_font |}.

(** A host that only knows [arial.ttf], and renders it as the box font. *)
Definition only_arial : font_env :=
  {| truetype := fun name _ => if String.eqb name "arial.ttf" then Ok box_font else Raise OSError;
     load_default := box_font |}.

(** A host on which every font name loads. *)
Definition any_font : font_env :=
  {| truetype := fun _ _ => Ok box_font; load_default := box_font |}.

Definition icons_dir : string := "public/icons".
Definition icon_192_path : string := "public/icons/icon-192.png".
Definition icon_512_path : string := "public/icons/icon-512.png".
Definition done_message : string := "Icons created successfully!".

(** An empty working directory. *)
Definition fresh_world : world := {| fs := ∅; stdout := [] |}.

(** Two buffers of the same mode and size. *)
Definition same_shape (a b : image) : Prop :=
  im_mode a = im_mode b /\ im_width a = im_width b /\ im_height a = im_height b.

(** The world after [path] has come to name [n]. *)
Definition with_node (path : string) (n : node) (w : world) : world :=
  {| fs := <[path := n]> (fs w); stdout := stdout w |}.

(** A path that is free or names a directory. *)
Definition not_a_file (n : option node) : Prop := n = None \/ n = Some Directory.

(** A path that is free or names a file. *)
Definition not_a_directory (n : option node) : Prop := n <> Some Directory.

(** Some file that is in the way. *)
Definition stray_file : node :=
  File "PNG" {| im_mode := "RGBA"; im_width := 0; im_height := 0;
                im_data := fun _ _ => background |}.

(** The picture as its layers describe it: the button lies over the lines,
    the lines over the paper with its outline, the paper over the
    background. *)
Definition layers (p : paper) (rects : list rect) (b : rect) (x y : Z) : color :=
  if in_rect b x y then blue
  else if existsb (fun r => in_rect r x y) rects then background
  else if in_rect (paper_rect p) x y then
         if on_edge (paper_rect p) x y then light_gray else white
  else background.


(** Boxes that follow one another down the canvas without sharing a row. *)
Fixpoint stacked (rs : list rect) : Prop :=
  match rs with
  | r :: (r' :: _) as rest => y1 r < y0 r' /\ stacked rest
  | _ => True
  end.

(* ===================================================================== *)
(** * Rounding to binary64 *)
(* ===================================================================== *)

Lemma digits2_pos_bounds (p : positive) :
  2 ^ (Zpos (digits2_pos p) - 1) <= Zpos p < 2 ^ Zpos (digits2_pos p).
Proof.
  induction p as [p IH | p IH |]; cbn [digits2_pos].
  - rewrite Pos2Z.inj_succ, Z.pow_succ_r by lia.
    replace (Z.succ (Zpos (digits2_pos p)) - 1) with (Z.succ (Zpos (digits2_pos p) - 1)) by lia.
    rewrite Z.pow_succ_r by lia. lia.
  - rewrite Pos2Z.inj_succ, Z.pow_succ_r by lia.
    replace (Z.succ (Zpos (digits2_pos p)) - 1) with (Z.succ (Zpos (digits2_pos p) - 1)) by lia.
    rewrite Z.pow_succ_r by lia. lia.
  - cbn. lia.
Qed.

Lemma located_ext m l X Y : (X == Y)%Q -> located m l X -> located m l Y.
Proof.
  intros E; destruct l as [|[]]; cbn; rewrite E; auto.
Qed.

Lemma inject_Z_xO p : (inject_Z (Zpos p~0) == 2 * inject_Z (Zpos p))%Q.
Proof. rewrite Pos2Z.inj_xO, inject_Z_mult. reflexivity. Qed.

Lemma inject_Z_xI p : (inject_Z (Zpos p~1) == 2 * inject_Z (Zpos p) + 1)%Q.
Proof. rewrite Pos2Z.inj_xI, inject_Z_plus, inject_Z_mult. reflexivity. Qed.

Lemma shr_1_located mrs X :
  0 <= shr_m mrs ->
  located (shr_m mrs) (loc_of_shr_record mrs) X ->
  located (shr_m (shr_1 mrs)) (loc_of_shr_record (shr_1 mrs)) (X * (1#2))
  /\ shr_m (shr_1 mrs) = shr_m mrs / 2.
Proof.
  destruct mrs as [m r s]; cbn [shr_m]; intros Hm H.
  destruct m as [|p|p]; [| |lia].
  - split; [|reflexivity].
    destruct r, s; cbn in *; change (inject_Z 0) with 0%Q in *; lra.
  - destruct p as [p|p|].
    + split.
      * pose proof (inject_Z_xI p) as E.
        destruct r, s; cbn [shr_1 loc_of_shr_record shr_m orb located] in *; lra.
      * cbn [shr_1 shr_m]. rewrite Pos2Z.inj_xI. apply Z.div_unique with 1; lia.
    + split.
      * pose proof (inject_Z_xO p) as E.
        destruct r, s; cbn [shr_1 loc_of_shr_record shr_m orb located] in *; lra.
      * cbn [shr_1 shr_m]. rewrite Pos2Z.inj_xO. apply Z.div_unique with 0; lia.
    + split; [|reflexivity].
      destruct r, s; cbn in *; change (inject_Z 0) with 0%Q in *; change (inject_Z 1) with 1%Q in *; lra.
Qed.

Lemma Qpow2_add (a b : Z) : (Qpower 2 (a + b) == Qpower 2 a * Qpower 2 b)%Q.
Proof. apply Qpower_plus. discriminate. Qed.

Lemma Qpow2_pos (a : Z) : (0 < Qpower 2 a)%Q.
Proof. apply Qpower_0_lt. reflexivity. Qed.

Lemma pow2_xO (n : positive) : 2 ^ Zpos n~0 = 2 ^ Zpos n * 2 ^ Zpos n.
Proof. rewrite <- Z.pow_add_r by lia. f_equal. lia. Qed.

Lemma pow2_xI (n : positive) : 2 ^ Zpos n~1 = 2 * (2 ^ Zpos n * 2 ^ Zpos n).
Proof.
  replace (Zpos n~1) with (1 + (Zpos n + Zpos n)) by lia.
  rewrite !Z.pow_add_r by lia. reflexivity.
Qed.

Lemma iter_shr_located (n : positive) : forall mrs X,
  0 <= shr_m mrs ->
  located (shr_m mrs) (loc_of_shr_record mrs) X ->
  located (shr_m (SpecFloat.iter_pos shr_1 n mrs)) (loc_of_shr_record (SpecFloat.iter_pos shr_1 n mrs))
          (X * Qpower 2 (- Zpos n))
  /\ shr_m (SpecFloat.iter_pos shr_1 n mrs) = shr_m mrs / 2 ^ Zpos n.
Proof.
  induction n as [n IH | n IH |]; intros mrs X Hm H; cbn [SpecFloat.iter_pos].
  - destruct (shr_1_located mrs X Hm H) as [H1 E1].
    assert (Hm1 : 0 <= shr_m (shr_1 mrs)) by (rewrite E1; apply Z.div_pos; lia).
    destruct (IH _ _ Hm1 H1) as [H2 E2].
    assert (Hm2 : 0 <= shr_m (SpecFloat.iter_pos shr_1 n (shr_1 mrs)))
      by (rewrite E2; apply Z.div_pos; lia).
    destruct (IH _ _ Hm2 H2) as [H3 E3].
    split.
    + eapply located_ext; [|exact H3].
      assert (E : (Qpower 2 (- Zpos n~1) == (1#2) * (Qpower 2 (- Zpos n) * Qpower 2 (- Zpos n)))%Q).
      { rewrite <- !Qpow2_add.
        replace (- Zpos n~1) with (-1 + (- Zpos n + - Zpos n)) by lia.
        rewrite (Qpow2_add (-1)). reflexivity. }
      rewrite E. ring.
    + rewrite E3, E2, E1, !Z.div_div by lia.
      f_equal. rewrite pow2_xI. lia.
  - destruct (IH _ _ Hm H) as [H2 E2].
    assert (Hm2 : 0 <= shr_m (SpecFloat.iter_pos shr_1 n mrs))
      by (rewrite E2; apply Z.div_pos; lia).
    destruct (IH _ _ Hm2 H2) as [H3 E3].
    split.
    + eapply located_ext; [|exact H3].
      assert (E : (Qpower 2 (- Zpos n~0) == Qpower 2 (- Zpos n) * Qpower 2 (- Zpos n))%Q).
      { rewrite <- Qpow2_add.
        replace (- Zpos n~0) with (- Zpos n + - Zpos n) by lia. reflexivity. }
      rewrite E. ring.
    + rewrite E3, E2, !Z.div_div by lia.
      f_equal. rewrite pow2_xO. lia.
  - destruct (shr_1_located mrs X Hm H) as [H1 E1]. split.
    + eapply located_ext; [|exact H1]. reflexivity.
    + rewrite E1. reflexivity.
Qed.

Lemma round_nearest_even_spec m l X :
  located m l X ->
  (inject_Z (round_nearest_even m l) - (1#2) <= X <= inject_Z (round_nearest_even m l) + (1#2))%Q
  /\ m <= round_nearest_even m l <= m + 1.
Proof.
  intros H. destruct l as [|[]]; cbn [round_nearest_even located] in *.
  - split; [lra | lia].
  - destruct (Z.even m).
    + split; [lra | lia].
    + rewrite inject_Z_plus. change (inject_Z 1) with 1%Q. split; [lra | lia].
  - split; [lra | lia].
  - rewrite inject_Z_plus. change (inject_Z 1) with 1%Q. split; [lra | lia].
Qed.

Lemma loc_of_record_of_loc m l : loc_of_shr_record (shr_record_of_loc m l) = l.
Proof. destruct l as [|[]]; reflexivity. Qed.

Lemma shr_m_record_of_loc m l : shr_m (shr_record_of_loc m l) = m.
Proof. destruct l as [|[]]; reflexivity. Qed.

Lemma digits2_pos_unique (p : positive) (k : Z) :
  2 ^ (k - 1) <= Zpos p < 2 ^ k -> Zpos (digits2_pos p) = k.
Proof.
  intros [Hl Hu]. pose proof (digits2_pos_bounds p) as [Dl Du].
  set (d := Zpos (digits2_pos p)) in *.
  assert (0 < k).
  { destruct (Z_lt_le_dec 0 k); [assumption|].
    assert (2 ^ k <= 2 ^ 0) by (apply Z.pow_le_mono_r; lia). simpl in *. lia. }
  destruct (Z_lt_le_dec d k) as [L|L].
  - assert (2 ^ d <= 2 ^ (k - 1)) by (apply Z.pow_le_mono_r; lia). lia.
  - destruct (Z_lt_le_dec k d) as [L'|L']; [|lia].
    assert (2 ^ k <= 2 ^ (d - 1)) by (apply Z.pow_le_mono_r; lia). lia.
Qed.

(** The first shift of [binary_round_aux] on a mantissa with at least 53 digits,
    away from the subnormal range. *)
Lemma shr_fexp_spec (mx : positive) (ex : Z) (lx : location) (X : Q) (d : Z) :
  d = Zpos (digits2_pos mx) ->
  53 <= d -> -1074 <= d + ex - 53 ->
  located (Zpos mx) lx X ->
  exists r,
    shr_fexp 53 1024 (Zpos mx) ex lx = (r, d + ex - 53)
    /\ located (shr_m r) (loc_of_shr_record r) (X * Qpower 2 (- (d - 53)))
    /\ 2 ^ 52 <= shr_m r < 2 ^ 53.
Proof.
  intros Ed Hd Hn H.
  pose proof (digits2_pos_bounds mx) as [Dl Du]. rewrite <- Ed in Dl, Du.
  unfold shr_fexp, fexp, emin, Zdigits2. rewrite <- Ed.
  replace (Z.max (d + ex - 53) (3 - 1024 - 53) - ex) with (d - 53) by lia.
  destruct (d - 53) as [|n|n] eqn:En; try lia.
  - exists (shr_record_of_loc (Zpos mx) lx). cbn [shr].
    rewrite loc_of_record_of_loc, shr_m_record_of_loc.
    split; [f_equal; lia|]. split.
    + eapply located_ext; [|exact H].
      change (Qpower 2 (- 0)) with 1%Q. ring.
    + replace d with 53 in * by lia. cbn in Dl. lia.
  - exists (SpecFloat.iter_pos shr_1 n (shr_record_of_loc (Zpos mx) lx)). cbn [shr].
    destruct (iter_shr_located n (shr_record_of_loc (Zpos mx) lx) X) as [H1 E1].
    + rewrite shr_m_record_of_loc. lia.
    + rewrite loc_of_record_of_loc, shr_m_record_of_loc. exact H.
    + split; [f_equal; lia|]. split; [exact H1|].
      rewrite E1, shr_m_record_of_loc.
      assert (P : 2 ^ (d - 1) = 2 ^ 52 * 2 ^ Zpos n)
        by (rewrite <- Z.pow_add_r by lia; f_equal; lia).
      assert (P' : 2 ^ d = 2 ^ 53 * 2 ^ Zpos n)
        by (rewrite <- Z.pow_add_r by lia; f_equal; lia).
      assert (0 < 2 ^ Zpos n) by (apply Z.pow_pos_nonneg; lia).
      split.
      * apply Z.div_le_lower_bound; lia.
      * apply Z.div_lt_upper_bound; lia.
Qed.

Lemma near_scale (M X1 P v x : Q) :
  (inject_Z (2 ^ 52) <= M)%Q ->
  (M - (1#2) <= X1 /\ X1 <= M + (1#2))%Q ->
  (0 < P)%Q ->
  (v == M * P)%Q -> (x == X1 * P)%Q ->
  near v x.
Proof.
  intros HM [Hl Hu] HP Ev Ex. unfold near. rewrite Ev, Ex.
  change (inject_Z (2 ^ 52)) with (4503599627370496 # 1)%Q in HM.
  assert (A : (M * (1 - u53) <= X1)%Q) by (unfold u53; lra).
  assert (B : (X1 <= M * (1 + u53))%Q) by (unfold u53; lra).
  split.
  - assert (E : (M * P * (1 - u53) == M * (1 - u53) * P)%Q) by ring.
    rewrite E. apply Qmult_le_compat_r; lra.
  - assert (E : (M * P * (1 + u53) == M * (1 + u53) * P)%Q) by ring.
    rewrite E. apply Qmult_le_compat_r; lra.
Qed.

Lemma round_aux_spec (s : bool) (mx : positive) (ex : Z) (lx : location) (X : Q) (d : Z) :
  d = Zpos (digits2_pos mx) ->
  53 <= d -> -1074 <= d + ex - 53 ->
  located (Zpos mx) lx X ->
  exists (m : positive) (e : Z),
    2 ^ 52 <= Zpos m < 2 ^ 53 /\ -1074 <= e
    /\ binary_round_aux 53 1024 s (Zpos mx) ex lx
       = (if e <=? 971 then S754_finite s m e else S754_infinity s)
    /\ near (inject_Z (Zpos m) * Qpower 2 e) (X * Qpower 2 ex).
Proof.
  intros Ed Hd Hn H.
  destruct (shr_fexp_spec mx ex lx X d Ed Hd Hn H) as (r & Er & Hloc & Hb).
  unfold binary_round_aux. rewrite Er.
  destruct (round_nearest_even_spec _ _ _ Hloc) as [HQ HZ].
  set (mr := round_nearest_even (shr_m r) (loc_of_shr_record r)) in *.
  set (e1 := d + ex - 53) in *.
  assert (Ex : (X * Qpower 2 ex == X * Qpower 2 (- (d - 53)) * Qpower 2 e1)%Q).
  { rewrite <- Qmult_assoc, <- Qpow2_add. replace (- (d - 53) + e1) with ex by lia. reflexivity. }
  destruct (Z_lt_le_dec mr (2 ^ 53)) as [L|L].
  - destruct mr as [|q|q] eqn:Emr; try lia.
    assert (Dq : Zpos (digits2_pos q) = 53) by (apply digits2_pos_unique; lia).
    exists q, e1. split; [lia|]. split; [lia|]. split.
    + unfold shr_fexp, fexp, emin, Zdigits2. rewrite Dq.
      replace (Z.max (53 + e1 - 53) (3 - 1024 - 53) - e1) with 0 by lia.
      cbn [shr shr_record_of_loc shr_m]. reflexivity.
    + apply (near_scale (inject_Z (Zpos q)) (X * Qpower 2 (- (d - 53))) (Qpower 2 e1)).
      * rewrite <- Zle_Qle. lia.
      * exact HQ.
      * apply Qpow2_pos.
      * reflexivity.
      * exact Ex.
  - assert (Emr : mr = 2 ^ 53) by lia.
    exists (4503599627370496%positive), (e1 + 1). split; [cbn; lia|]. split; [lia|]. split.
    + rewrite Emr. unfold shr_fexp, fexp, emin.
      change (Zdigits2 (2 ^ 53)) with 54.
      replace (Z.max (54 + e1 - 53) (3 - 1024 - 53) - e1) with 1 by lia.
      change (2 ^ 53) with 9007199254740992.
      cbn [shr shr_record_of_loc shr_m SpecFloat.iter_pos shr_1]. reflexivity.
    + apply (near_scale (inject_Z mr) (X * Qpower 2 (- (d - 53))) (Qpower 2 e1)).
      * rewrite <- Zle_Qle. lia.
      * exact HQ.
      * apply Qpow2_pos.
      * rewrite Emr, Qpow2_add.
        change (Qpower 2 1) with 2%Q.
        change (inject_Z (2 ^ 53)) with (9007199254740992 # 1)%Q.
        change (inject_Z 4503599627370496) with (4503599627370496 # 1)%Q. ring.
      * exact Ex.
Qed.

Lemma near_pos v x : (0 <= v)%Q -> near v x -> (0 <= x)%Q.
Proof.
  intros Hv [Hl _]. unfold u53 in Hl.
  assert (0 <= v * (1 - (1 # 9007199254740992)))%Q by (apply Qmult_le_0_compat; lra). lra.
Qed.

Lemma Qpow2_le (a b : Z) : a <= b -> (Qpower 2 a <= Qpower 2 b)%Q.
Proof. intros. apply Qpower_le_compat_l; [assumption | discriminate]. Qed.

Lemma round_aux_rounded (mx : positive) (ex : Z) (lx : location) (X : Q) :
  53 <= Zpos (digits2_pos mx) -> -1074 <= Zpos (digits2_pos mx) + ex - 53 ->
  located (Zpos mx) lx X ->
  (tiny <= X * Qpower 2 ex)%Q ->
  rounded (X * Qpower 2 ex) (binary_round_aux 53 1024 false (Zpos mx) ex lx).
Proof.
  intros Hd Hn H Hx.
  destruct (round_aux_spec false mx ex lx X _ eq_refl Hd Hn H) as (m & e & Hm & He & E & N).
  rewrite E. set (x := (X * Qpower 2 ex)%Q) in *.
  assert (M1 : (inject_Z (2 ^ 52) <= inject_Z (Zpos m))%Q) by (rewrite <- Zle_Qle; lia).
  assert (M2 : (inject_Z (Zpos m) < inject_Z (2 ^ 53))%Q) by (rewrite <- Zlt_Qlt; lia).
  change (inject_Z (2 ^ 52)) with (4503599627370496 # 1)%Q in M1.
  change (inject_Z (2 ^ 53)) with (9007199254740992 # 1)%Q in M2.
  pose proof (Qpow2_pos e) as Pe.
  destruct N as [Nl Nu]. unfold u53 in Nl, Nu.
  destruct (Z.leb_spec e 971) as [L|L].
  - left. split.
    + exists m, e. split; [reflexivity|]. split; [lia|]. split; [|lia].
      destruct (Z_lt_le_dec e (-100)) as [C|C]; [exfalso | lia].
      assert (P : (Qpower 2 e <= Qpower 2 (-101))%Q) by (apply Qpow2_le; lia).
      change (Qpower 2 (-101)) with (1 # 2535301200456458802993406410752)%Q in P.
      unfold tiny in Hx.
      assert (Q1 : (inject_Z (Zpos m) * Qpower 2 e <= (9007199254740992 # 1) * Qpower 2 e)%Q)
        by (apply Qmult_le_compat_r; lra).
      lra.
    + split; assumption.
  - right. split; [reflexivity|].
    assert (P : (Qpower 2 972 <= Qpower 2 e)%Q) by (apply Qpow2_le; lia).
    assert (Q1 : ((4503599627370496 # 1) * Qpower 2 e <= inject_Z (Zpos m) * Qpower 2 e)%Q)
      by (apply Qmult_le_compat_r; lra).
    assert (Q2 : (huge == (4503599627370496 # 1) * Qpower 2 972 * (1 # 2))%Q)
      by (vm_compute; reflexivity).
    rewrite Q2. lra.
Qed.

Lemma trunc_floor (f : spec_float) :
  normal f -> Float64.trunc f = Some (Qfloor (Float64.to_Q f)).
Proof.
  intros (m & e & -> & Hm & He). cbn [Float64.trunc Float64.to_Q]. f_equal.
  destruct (Z.leb_spec 0 e) as [L|L].
  - rewrite <- (Qfloor_Z (Zpos m * 2 ^ e)). apply Qfloor_comp.
    rewrite inject_Z_mult, Zpower_Qpower by assumption. reflexivity.
  - rewrite Zdiv_Qdiv. apply Qfloor_comp.
    rewrite Zpower_Qpower by lia. rewrite Qpower_opp.
    unfold Qdiv. rewrite Qinv_involutive. reflexivity.
Qed.

Lemma digits2_pos_mul_ge (a b : positive) :
  Zpos (digits2_pos a) + Zpos (digits2_pos b) - 1 <= Zpos (digits2_pos (a * b)).
Proof.
  pose proof (digits2_pos_bounds a) as [Al Au].
  pose proof (digits2_pos_bounds b) as [Bl Bu].
  pose proof (digits2_pos_bounds (a * b)) as [Pl Pu].
  set (da := Zpos (digits2_pos a)) in *. set (db := Zpos (digits2_pos b)) in *.
  set (dp := Zpos (digits2_pos (a * b))) in *.
  destruct (Z_lt_le_dec dp (da + db - 1)) as [C|C]; [exfalso | assumption].
  assert (2 ^ dp <= 2 ^ (da + db - 2)) by (apply Z.pow_le_mono_r; lia).
  assert (E : 2 ^ (da + db - 2) = 2 ^ (da - 1) * 2 ^ (db - 1)).
  { rewrite <- Z.pow_add_r by (unfold da, db; lia). f_equal. lia. }
  rewrite Pos2Z.inj_mul in Pu.
  assert (2 ^ (da - 1) * 2 ^ (db - 1) <= Zpos a * Zpos b) by (apply Z.mul_le_mono_nonneg; lia).
  lia.
Qed.

Lemma to_Q_nonneg (f : spec_float) : normal f -> (0 <= Float64.to_Q f)%Q.
Proof.
  intros (m & e & -> & _). cbn [Float64.to_Q].
  apply Qmult_le_0_compat.
  - change 0%Q with (inject_Z 0). rewrite <- Zle_Qle. lia.
  - apply Qlt_le_weak, Qpow2_pos.
Qed.

Lemma mul_rounded (f1 f2 : spec_float) :
  normal f1 -> normal f2 ->
  (tiny <= Float64.to_Q f1 * Float64.to_Q f2)%Q ->
  rounded (Float64.to_Q f1 * Float64.to_Q f2) (Float64.mul f1 f2).
Proof.
  intros (m1 & e1 & -> & Hm1 & He1) (m2 & e2 & -> & Hm2 & He2) Hx.
  cbn [Float64.mul SFmul xorb Float64.to_Q] in *.
  assert (D1 : Zpos (digits2_pos m1) = 53) by (apply digits2_pos_unique; lia).
  assert (D2 : Zpos (digits2_pos m2) = 53) by (apply digits2_pos_unique; lia).
  pose proof (digits2_pos_mul_ge m1 m2) as D.
  assert (E : (inject_Z (Zpos m1) * Qpower 2 e1 * (inject_Z (Zpos m2) * Qpower 2 e2)
               == inject_Z (Zpos (m1 * m2)) * Qpower 2 (e1 + e2))%Q).
  { rewrite Pos2Z.inj_mul, inject_Z_mult, Qpow2_add. ring. }
  assert (R : rounded (inject_Z (Zpos (m1 * m2)) * Qpower 2 (e1 + e2))
                (binary_round_aux 53 1024 false (Zpos (m1 * m2)) (e1 + e2) loc_Exact)).
  { apply round_aux_rounded; try lia.
    - cbn. reflexivity.
    - rewrite <- E. exact Hx. }
  unfold Float64.prec, Float64.emax.
  destruct R as [[Hn N] | [Hi Hh]]; [left | right]; (split; [assumption|]).
  - unfold near in *. rewrite E. exact N.
  - rewrite E. exact Hh.
Qed.

Lemma pos_iter_xO (p k : positive) : Zpos (Pos.iter xO p k) = Zpos p * 2 ^ Zpos k.
Proof.
  induction k as [|k IH] using Pos.peano_ind.
  - cbn. lia.
  - rewrite Pos.iter_succ, Pos2Z.inj_xO, IH, Pos2Z.inj_succ, Z.pow_succ_r by lia. lia.
Qed.

Lemma of_int_rounded (n : Z) :
  0 < n -> rounded (inject_Z n) (Float64.of_int n).
Proof.
  intros Hn. destruct n as [|p|p]; try lia.
  unfold Float64.of_int, binary_normalize, binary_round, Float64.prec, Float64.emax.
  pose proof (digits2_pos_bounds p) as [Dl Du].
  set (d := Zpos (digits2_pos p)) in *.
  assert (Hd : 0 < d) by (unfold d; lia).
  unfold fexp, emin, shl_align.
  replace (Z.max (d + 0 - 53) (3 - 1024 - 53)) with (d - 53) by lia.
  replace (d - 53 - 0) with (d - 53) by lia.
  assert (X1 : (tiny <= inject_Z (Zpos p))%Q).
  { unfold tiny. apply Qle_trans with (inject_Z 1); [discriminate|]. rewrite <- Zle_Qle. lia. }
  destruct (d - 53) as [|k|k] eqn:Ek.
  - assert (E : (inject_Z (Zpos p) == inject_Z (Zpos p) * Qpower 2 0)%Q)
      by (change (Qpower 2 0) with 1%Q; ring).
    assert (R : rounded (inject_Z (Zpos p) * Qpower 2 0)
                  (binary_round_aux 53 1024 false (Zpos p) 0 loc_Exact)).
    { apply round_aux_rounded; fold d; try lia.
      - cbn. reflexivity.
      - rewrite <- E. exact X1. }
    destruct R as [[Hn' N] | [Hi Hh]]; [left | right]; (split; [assumption|]).
    + unfold near in *. rewrite E. exact N.
    + rewrite E. exact Hh.
  - assert (E : (inject_Z (Zpos p) == inject_Z (Zpos p) * Qpower 2 0)%Q)
      by (change (Qpower 2 0) with 1%Q; ring).
    assert (R : rounded (inject_Z (Zpos p) * Qpower 2 0)
                  (binary_round_aux 53 1024 false (Zpos p) 0 loc_Exact)).
    { apply round_aux_rounded; fold d; try lia.
      - cbn. reflexivity.
      - rewrite <- E. exact X1. }
    destruct R as [[Hn' N] | [Hi Hh]]; [left | right]; (split; [assumption|]).
    + unfold near in *. rewrite E. exact N.
    + rewrite E. exact Hh.
  - set (q := Pos.iter xO p k).
    assert (Eq : Zpos q = Zpos p * 2 ^ Zpos k) by apply pos_iter_xO.
    assert (Dq : Zpos (digits2_pos q) = 53).
    { apply digits2_pos_unique. rewrite Eq.
      assert (P : 2 ^ 53 = 2 ^ d * 2 ^ Zpos k)
        by (rewrite <- Z.pow_add_r by lia; f_equal; lia).
      assert (P' : 2 ^ (53 - 1) = 2 ^ (d - 1) * 2 ^ Zpos k)
        by (rewrite <- Z.pow_add_r by lia; f_equal; lia).
      assert (0 < 2 ^ Zpos k) by (apply Z.pow_pos_nonneg; lia).
      rewrite P, P'. split.
      - apply Z.mul_le_mono_nonneg_r; lia.
      - apply Z.mul_lt_mono_pos_r; lia. }
    assert (E : (inject_Z (Zpos p) == inject_Z (Zpos q) * Qpower 2 (Z.neg k))%Q).
    { rewrite Eq, inject_Z_mult, Zpower_Qpower by lia.
      change (Z.neg k) with (- Zpos k). rewrite Qpower_opp.
      change (inject_Z 2) with 2%Q.
      rewrite <- Qmult_assoc, Qmult_inv_r, Qmult_1_r; [reflexivity|].
      apply Qpower_not_0. discriminate. }
    assert (R : rounded (inject_Z (Zpos q) * Qpower 2 (Z.neg k))
                  (binary_round_aux 53 1024 false (Zpos q) (Z.neg k) loc_Exact)).
    { apply round_aux_rounded; rewrite ?Dq; try lia.
      - cbn. reflexivity.
      - rewrite <- E. exact X1. }
    destruct R as [[Hn' N] | [Hi Hh]]; [left | right]; (split; [assumption|]).
    + unfold near in *. rewrite E. exact N.
    + rewrite E. exact Hh.
Qed.

Lemma located_div (q r b : Z) (X : Q) :
  0 < b -> 0 <= r < b ->
  (X * inject_Z b == inject_Z (b * q + r))%Q ->
  located q (new_location b r) X.
Proof.
  intros Hb Hr E.
  rewrite inject_Z_plus, inject_Z_mult in E.
  assert (HB : (0 < inject_Z b)%Q) by (change 0%Q with (inject_Z 0); rewrite <- Zlt_Qlt; lia).
  assert (cmp : forall c d : Q, (c * inject_Z b < d * inject_Z b)%Q -> (c < d)%Q)
    by (intros c d; apply Qmult_lt_r; assumption).
  assert (Loc : match Z.compare (2 * r) b with
                | Lt => r = 0 \/ located q (loc_Inexact Lt) X
                | Eq => located q (loc_Inexact Eq) X
                | Gt => located q (loc_Inexact Gt) X
                end).
  { destruct (Z.compare_spec (2 * r) b) as [C|C|C].
    - cbn [located]. apply (Qmult_inj_r _ _ (inject_Z b)); [lra|].
      rewrite E, <- C, inject_Z_mult. change (inject_Z 2) with 2%Q. ring.
    - destruct (Z.eq_dec r 0) as [Z0|NZ]; [left; assumption | right].
      assert (R0 : (0 < inject_Z r)%Q)
        by (change 0%Q with (inject_Z 0); rewrite <- Zlt_Qlt; lia).
      assert (R1 : (2 * inject_Z r < inject_Z b)%Q)
        by (change 2%Q with (inject_Z 2); rewrite <- inject_Z_mult, <- Zlt_Qlt; lia).
      cbn [located]. split; apply cmp; rewrite E; lra.
    - assert (R0 : (inject_Z r < inject_Z b)%Q) by (rewrite <- Zlt_Qlt; lia).
      assert (R1 : (inject_Z b < 2 * inject_Z r)%Q)
        by (change 2%Q with (inject_Z 2); rewrite <- inject_Z_mult, <- Zlt_Qlt; lia).
      cbn [located]. split; apply cmp; rewrite E; lra. }
  unfold new_location.
  destruct (Z.even b) eqn:Ev.
  - unfold new_location_even. destruct (Z.eqb_spec r 0) as [Z0|NZ].
    + subst r. cbn [located]. apply (Qmult_inj_r _ _ (inject_Z b)); [lra|].
      rewrite E. change (inject_Z 0) with 0%Q. ring.
    + destruct (Z.compare (2 * r) b); [assumption | destruct Loc; [contradiction | assumption] | assumption].
  - unfold new_location_odd. destruct (Z.eqb_spec r 0) as [Z0|NZ].
    + subst r. cbn [located]. apply (Qmult_inj_r _ _ (inject_Z b)); [lra|].
      rewrite E. change (inject_Z 0) with 0%Q. ring.
    + assert (Od : Z.odd b = true) by (rewrite <- Z.negb_even, Ev; reflexivity).
      apply Z.odd_spec in Od. destruct Od as [k Hk].
      destruct (Z.compare_spec (2 * r + 1) b) as [C|C|C].
      * assert (C2 : (2 * r ?= b) = Lt) by (apply Z.compare_lt_iff; lia).
        rewrite C2 in Loc. destruct Loc; [contradiction | assumption].
      * assert (C2 : (2 * r ?= b) = Lt) by (apply Z.compare_lt_iff; lia).
        rewrite C2 in Loc. destruct Loc; [contradiction | assumption].
      * assert (C2 : (2 * r ?= b) = Gt) by (apply Z.compare_gt_iff; lia).
        rewrite C2 in Loc. assumption.
Qed.

Lemma quotient_rounded (a b : Z) :
  0 < a -> 0 < b -> b <= a * 2 ^ 40 ->
  rounded (inject_Z a / inject_Z b) (Float64.quotient a b).
Proof.
  intros Ha Hb Hab.
  destruct a as [|pa|pa]; try lia. destruct b as [|pb|pb]; try lia.
  unfold Float64.quotient, Float64.exact, SFdiv, SFdiv_core_binary, Float64.prec, Float64.emax.
  cbn [xorb Zdigits2].
  pose proof (digits2_pos_bounds pa) as [Al Au].
  pose proof (digits2_pos_bounds pb) as [Bl Bu].
  set (d1 := Zpos (digits2_pos pa)) in *. set (d2 := Zpos (digits2_pos pb)) in *.
  assert (Hd1 : 0 < d1) by (unfold d1; lia).
  assert (Hd2 : 0 < d2) by (unfold d2; lia).
  assert (Hdd : d2 <= d1 + 40).
  { destruct (Z_lt_le_dec (d1 + 40) d2) as [C|C]; [exfalso | assumption].
    assert (2 ^ (d1 + 40) <= 2 ^ (d2 - 1)) by (apply Z.pow_le_mono_r; lia).
    rewrite Z.pow_add_r in * by lia. nia. }
  unfold fexp, emin.
  replace (Z.max (d1 + 0 - (d2 + 0) - 53) (3 - 1024 - 53)) with (d1 - d2 - 53) by lia.
  replace (0 - 0) with 0 by lia.
  set (e' := Z.min (d1 - d2 - 53) 0).
  set (s := 0 - e').
  assert (Hs : 0 <= s) by (unfold s, e'; lia).
  set (m' := match s with Z.pos _ => Z.shiftl (Zpos pa) s | 0 => Zpos pa | Z.neg _ => 0 end).
  assert (Em : m' = Zpos pa * 2 ^ s).
  { unfold m'. destruct s as [|ps|ps] eqn:Es; [cbn; lia | | lia].
    rewrite Z.shiftl_mul_pow2 by lia. reflexivity. }
  assert (P2 : 0 < 2 ^ s) by (apply Z.pow_pos_nonneg; lia).
  assert (Hm' : 2 ^ 52 * Zpos pb <= m').
  { rewrite Em.
    assert (2 ^ (52 + d2) <= 2 ^ (d1 - 1 + s)) by (apply Z.pow_le_mono_r; unfold s, e'; lia).
    rewrite !Z.pow_add_r in * by lia.
    assert (2 ^ (d1 - 1) * 2 ^ s <= Zpos pa * 2 ^ s) by (apply Z.mul_le_mono_nonneg_r; lia).
    assert (2 ^ 52 * Zpos pb <= 2 ^ 52 * 2 ^ d2) by (apply Z.mul_le_mono_nonneg_l; lia).
    lia. }
  pose proof (Z_div_mod m' (Zpos pb) ltac:(lia)) as DM.
  destruct (Z.div_eucl m' (Zpos pb)) as [q r]. destruct DM as [DM Hr].
  assert (Hq : 2 ^ 52 <= q) by nia.
  destruct q as [|mq|mq]; try lia.
  pose proof (digits2_pos_bounds mq) as [Ql Qu].
  set (dq := Zpos (digits2_pos mq)) in *.
  assert (Hdq : 53 <= dq).
  { destruct (Z_lt_le_dec dq 53) as [C|C]; [exfalso | assumption].
    assert (2 ^ dq <= 2 ^ 52) by (apply Z.pow_le_mono_r; unfold dq; lia). lia. }
  set (X := (inject_Z m' / inject_Z (Zpos pb))%Q).
  assert (HB : ~ (inject_Z (Zpos pb) == 0)%Q) by discriminate.
  assert (E : (inject_Z (Zpos pa) / inject_Z (Zpos pb) == X * Qpower 2 e')%Q).
  { unfold X. rewrite Em, inject_Z_mult, Zpower_Qpower by lia.
    replace e' with (- s) by (unfold s; lia). rewrite Qpower_opp.
    change (inject_Z 2) with 2%Q. field. split; [|assumption].
    apply Qpower_not_0. discriminate. }
  assert (R : rounded (X * Qpower 2 e') (binary_round_aux 53 1024 false (Zpos mq) e' (new_location (Zpos pb) r))).
  { apply round_aux_rounded; fold dq; try (unfold e'; lia).
    - apply located_div; [lia | lia |].
      unfold X. rewrite <- DM. field. assumption.
    - rewrite <- E. unfold tiny.
      apply Qle_shift_div_l; [reflexivity|].
      assert (B : (inject_Z (Zpos pb) <= inject_Z (Zpos pa * 2 ^ 40))%Q)
        by (rewrite <- Zle_Qle; lia).
      rewrite inject_Z_mult in B.
      change (inject_Z (2 ^ 40)) with (1099511627776 # 1)%Q in B. lra. }
  destruct R as [[Hn' N] | [Hi Hh]]; [left | right]; (split; [assumption|]).
  - unfold near in *. rewrite E. exact N.
  - rewrite E. exact Hh.
Qed.

(** ** From the float operations to Python's expressions *)

Lemma rounded_finite x f : rounded x f -> Float64.is_finite f = true -> normal f /\ near (Float64.to_Q f) x.
Proof. intros [H | [-> _]] F; [assumption | discriminate]. Qed.

Lemma rounded_small x f : rounded x f -> (x < huge)%Q -> normal f /\ near (Float64.to_Q f) x.
Proof.
  intros [H | [_ H]] F; [assumption | exfalso]. apply (Qlt_irrefl x). eapply Qlt_le_trans; eassumption.
Qed.

Lemma normal_finite f : normal f -> Float64.is_finite f = true.
Proof. intros (m & e & -> & _). reflexivity. Qed.

Lemma py_int_normal f : normal f -> py_int f = Ok (Qfloor (Float64.to_Q f)).
Proof. intros N. unfold py_int. rewrite (trunc_floor f N). reflexivity. Qed.

Lemma floor_about v x : (0 <= v)%Q ->
  (v * (1 - 3 * u53) <= x /\ x <= v * (1 + 3 * u53))%Q -> about (Qfloor v) x.
Proof.
  intros Hv [Hl Hu]. pose proof (Qfloor_le v) as F1. pose proof (Qlt_floor v) as F2.
  rewrite inject_Z_plus in F2. change (inject_Z 1) with 1%Q in F2.
  unfold about, u53 in *. split.
  - change 0 with (Qfloor 0). apply Qfloor_resp_le. assumption.
  - split; lra.
Qed.

(** [int(k * s)] for a small constant [k], whose conversion to float is exact. *)
Lemma scaled_spec (k : Z) (s : spec_float) :
  normal (Float64.of_int k) -> (Float64.to_Q (Float64.of_int k) == inject_Z k)%Q -> 1 <= k ->
  normal s -> ((1 # 1048576) <= Float64.to_Q s)%Q ->
  (exists v, scaled k s = Ok (Qfloor v) /\ (0 <= v)%Q /\ near v (inject_Z k * Float64.to_Q s))
  \/ (scaled k s = Raise OverflowError /\ (huge <= inject_Z k * Float64.to_Q s)%Q).
Proof.
  intros Nk Ek Hk Ns Hx.
  unfold scaled, py_mul, py_float. rewrite (normal_finite _ Nk). cbn [mbind result_bind].
  assert (K1 : (1 <= inject_Z k)%Q) by (change 1%Q with (inject_Z 1); rewrite <- Zle_Qle; lia).
  assert (P0 : (Float64.to_Q s <= inject_Z k * Float64.to_Q s)%Q).
  { rewrite <- (Qmult_1_l (Float64.to_Q s)) at 1. apply Qmult_le_compat_r; [assumption | lra]. }
  assert (R : rounded (Float64.to_Q (Float64.of_int k) * Float64.to_Q s) (Float64.mul (Float64.of_int k) s)).
  { apply mul_rounded; try assumption. rewrite Ek. unfold tiny. lra. }
  destruct R as [[Nm N] | [Ei Hh]].
  - left. exists (Float64.to_Q (Float64.mul (Float64.of_int k) s)).
    split; [apply py_int_normal; assumption|]. split; [apply to_Q_nonneg; assumption|].
    unfold near in *. rewrite <- Ek. exact N.
  - right. rewrite Ei. split; [reflexivity|]. rewrite <- Ek. exact Hh.
Qed.

(** [int(n * c)] for a positive integer [n] and a float [c] between 1/2 and 2. *)
Lemma int_times_spec (n : Z) (c : spec_float) :
  0 < n -> normal c -> ((1 # 2) <= Float64.to_Q c)%Q -> (Float64.to_Q c <= 2)%Q ->
  (exists vn v, int_times n c = Ok (Qfloor v) /\ (0 <= v)%Q /\ (0 <= vn)%Q
                /\ near vn (inject_Z n) /\ near v (vn * Float64.to_Q c))
  \/ (int_times n c = Raise OverflowError /\ (huge <= inject_Z n * 4)%Q).
Proof.
  intros Hn Nc C1 C2.
  assert (N1 : (1 <= inject_Z n)%Q) by (change 1%Q with (inject_Z 1); rewrite <- Zle_Qle; lia).
  unfold int_times, py_mul, py_float.
  destruct (of_int_rounded n Hn) as [[Nn [Nl Nu]] | [Ei Hh]].
  - rewrite (normal_finite _ Nn). cbn [mbind result_bind].
    set (vn := Float64.to_Q (Float64.of_int n)) in *. set (C := Float64.to_Q c) in *.
    pose proof (to_Q_nonneg _ Nn) as V0. fold vn in V0.
    unfold u53 in Nl, Nu.
    assert (V1 : ((1 # 2) <= vn)%Q) by lra.
    assert (P3 : ((1 # 2) * vn <= vn * C)%Q).
    { rewrite (Qmult_comm (1 # 2)). apply Qmult_le_l; lra. }
    assert (P4 : (vn * C <= vn * 2)%Q) by (apply Qmult_le_l; lra).
    assert (R : rounded (vn * C) (Float64.mul (Float64.of_int n) c)).
    { apply mul_rounded; try assumption. fold vn C. unfold tiny. lra. }
    destruct R as [[Nm N] | [Ei Hh]].
    + left. exists vn, (Float64.to_Q (Float64.mul (Float64.of_int n) c)).
      split; [apply py_int_normal; assumption|]. split; [apply to_Q_nonneg; assumption|].
      split; [assumption|]. split; [split; unfold u53; assumption | exact N].
    + right. rewrite Ei. split; [reflexivity|]. lra.
  - right. rewrite Ei. cbn. split; [reflexivity|]. lra.
Qed.

Lemma py_truediv_spec (size : Z) :
  0 < size ->
  (exists s, py_truediv size 192 = Ok s /\ normal s
             /\ near (Float64.to_Q s) (inject_Z size * (1 # 192)))
  \/ (py_truediv size 192 = Raise OverflowError /\ (huge <= inject_Z size * (1 # 192))%Q).
Proof.
  intros Hs. unfold py_truediv. cbn [Z.eqb].
  assert (R : rounded (inject_Z size / inject_Z 192) (Float64.quotient size 192)).
  { apply quotient_rounded; lia. }
  assert (E : (inject_Z size / inject_Z 192 == inject_Z size * (1 # 192))%Q) by reflexivity.
  destruct R as [[Nm N] | [Ei Hh]].
  - left. exists (Float64.quotient size 192). rewrite (normal_finite _ Nm).
    split; [reflexivity|]. split; [assumption|]. unfold near in *. rewrite <- E. exact N.
  - right. rewrite Ei. cbn [Float64.is_finite]. split; [reflexivity|]. rewrite <- E. exact Hh.
Qed.

Lemma huge_big (x : Z) : (huge <= inject_Z x * 4)%Q -> 2 ^ 1000 <= x.
Proof.
  intros H. destruct (Z_lt_le_dec x (2 ^ 1000)) as [C|C]; [exfalso | assumption].
  rewrite Zlt_Qlt in C.
  assert (A : (inject_Z x * 4 < inject_Z (2 ^ 1000) * 4)%Q)
    by (apply Qmult_lt_compat_r; [reflexivity | assumption]).
  assert (B : (inject_Z (2 ^ 1000) * 4 <= huge)%Q) by (unfold Qle; vm_compute; discriminate).
  apply (Qlt_irrefl huge). eapply Qle_lt_trans; [exact H|]. eapply Qlt_le_trans; eassumption.
Qed.

Ltac solve_normal :=
  unfold normal; eexists; eexists; split; [vm_compute; reflexivity|];
  repeat split; vm_compute; first [reflexivity | discriminate].

Lemma int_times_about (n : Z) (c : spec_float) :
  0 < n -> normal c -> ((1 # 2) <= Float64.to_Q c)%Q -> (Float64.to_Q c <= 2)%Q ->
  (exists r, int_times n c = Ok r /\ about r (inject_Z n * Float64.to_Q c))
  \/ (int_times n c = Raise OverflowError /\ 2 ^ 1000 <= n).
Proof.
  intros Hn Nc C1 C2.
  destruct (int_times_spec n c Hn Nc C1 C2) as [(vn & v & E & V0 & Vn0 & [Nl Nu] & [Ml Mu]) | [E Hh]].
  - left. exists (Qfloor v). split; [assumption|].
    set (C := Float64.to_Q c) in *. unfold u53 in *.
    assert (P1 : (vn * C * (1 - u53) <= inject_Z n * C)%Q).
    { assert (E' : (vn * C * (1 - u53) == vn * (1 - u53) * C)%Q) by ring.
      rewrite E'. apply Qmult_le_compat_r; [exact Nl | lra]. }
    assert (P2 : (inject_Z n * C <= vn * C * (1 + u53))%Q).
    { assert (E' : (vn * C * (1 + u53) == vn * (1 + u53) * C)%Q) by ring.
      rewrite E'. apply Qmult_le_compat_r; [exact Nu | lra]. }
    unfold u53 in P1, P2.
    apply floor_about; [assumption | unfold u53; split; lra].
  - right. split; [assumption | apply huge_big; assumption].
Qed.

Ltac numerals :=
  repeat match goal with
  | |- context [inject_Z (Zpos ?p)] =>
      tryif is_var p then fail else change (inject_Z (Zpos p)) with (Qmake (Zpos p) 1)
  | |- context [inject_Z 0] => change (inject_Z 0) with 0%Q
  | H : context [inject_Z (Zpos ?p)] |- _ =>
      tryif is_var p then fail else change (inject_Z (Zpos p)) with (Qmake (Zpos p) 1) in H
  | H : context [inject_Z 0] |- _ => change (inject_Z 0) with 0%Q in H
  end.

Ltac to_Q_goal :=
  rewrite ?Zle_Qle, ?Zlt_Qlt; unfold Z.sub;
  repeat (rewrite inject_Z_plus || rewrite inject_Z_mult || rewrite inject_Z_opp); numerals.

Lemma lit_1_2_value : (Float64.to_Q lit_1_2 == C12)%Q.
Proof. vm_compute. reflexivity. Qed.
Lemma lit_0_6_value : (Float64.to_Q lit_0_6 == C06)%Q.
Proof. vm_compute. reflexivity. Qed.
Lemma lit_0_7_value : (Float64.to_Q lit_0_7 == C07)%Q.
Proof. vm_compute. reflexivity. Qed.

Lemma lit_1_2_range : ((1 # 2) <= Float64.to_Q lit_1_2 /\ Float64.to_Q lit_1_2 <= 2)%Q.
Proof. split; vm_compute; discriminate. Qed.
Lemma lit_0_6_range : ((1 # 2) <= Float64.to_Q lit_0_6 /\ Float64.to_Q lit_0_6 <= 2)%Q.
Proof. split; vm_compute; discriminate. Qed.
Lemma lit_0_7_range : ((1 # 2) <= Float64.to_Q lit_0_7 /\ Float64.to_Q lit_0_7 <= 2)%Q.
Proof. split; vm_compute; discriminate. Qed.

Lemma lit_1_2_normal : normal lit_1_2. Proof. solve_normal. Qed.
Lemma lit_0_6_normal : normal lit_0_6. Proof. solve_normal. Qed.
Lemma lit_0_7_normal : normal lit_0_7. Proof. solve_normal. Qed.

Section Run.

Variable size : Z.
Variable s : spec_float.
Hypothesis Hsize : 0 < size.
Hypothesis Hs : py_truediv size 192 = Ok s.

Let S : Q := (inject_Z size * (1 # 192))%Q.
Let sv : Q := Float64.to_Q s.

Lemma scale_normal : normal s /\ near sv S.
Proof.
  destruct (py_truediv_spec size Hsize) as [(s' & E & N & A) | [E _]]; rewrite Hs in E.
  - injection E as <-. split; assumption.
  - discriminate.
Qed.

Lemma size_ge1 : (1 <= inject_Z size)%Q.
Proof. change 1%Q with (inject_Z 1). rewrite <- Zle_Qle. lia. Qed.

Lemma sv_lower : ((1 # 1048576) <= sv)%Q.
Proof.
  destruct scale_normal as [N [Al Au]]. pose proof size_ge1. subst S. unfold u53 in *. lra.
Qed.

Lemma scaled_cases (k : Z) :
  In k ks ->
  (exists v, scaled k s = Ok (Qfloor v) /\ (0 <= v)%Q /\ near v (inject_Z k * sv))
  \/ (scaled k s = Raise OverflowError /\ 2 ^ 1000 <= size).
Proof.
  intros Hk. destruct scale_normal as [N [Al Au]]. pose proof sv_lower as L.
  assert (C : (exists v, scaled k s = Ok (Qfloor v) /\ (0 <= v)%Q /\ near v (inject_Z k * sv))
              \/ (scaled k s = Raise OverflowError /\ (huge <= inject_Z k * sv)%Q)).
  { unfold ks in Hk. cbn [In] in Hk.
    repeat (destruct Hk as [<- | Hk]; [apply scaled_spec; [solve_normal | vm_compute; reflexivity | lia | assumption | assumption] |]).
    contradiction. }
  destruct C as [C | [E Hh]]; [left; assumption | right].
  split; [assumption|]. apply huge_big.
  assert (K : (inject_Z k <= 48)%Q).
  { change 48%Q with (inject_Z 48). rewrite <- Zle_Qle. unfold ks in Hk. cbn [In] in Hk. lia. }
  assert (P : (inject_Z k * sv <= 48 * sv)%Q) by (apply Qmult_le_compat_r; lra).
  subst S. unfold u53 in *. lra.
Qed.

Lemma scaled_about (k r : Z) :
  In k ks -> scaled k s = Ok r -> about r (inject_Z k * S).
Proof.
  intros Hk E. destruct scale_normal as [N [Al Au]].
  destruct (scaled_cases k Hk) as [(v & E' & V0 & [Ml Mu]) | [E' _]]; rewrite E in E'; [|discriminate].
  injection E' as ->.
  assert (K : (1 <= inject_Z k)%Q).
  { change 1%Q with (inject_Z 1). rewrite <- Zle_Qle. unfold ks in Hk. cbn [In] in Hk. lia. }
  assert (P1 : (inject_Z k * sv * (1 - u53) <= inject_Z k * S)%Q).
  { assert (E' : (inject_Z k * sv * (1 - u53) == inject_Z k * (sv * (1 - u53)))%Q) by ring.
    rewrite E'. apply Qmult_le_l; [lra | exact Al]. }
  assert (P2 : (inject_Z k * S <= inject_Z k * sv * (1 + u53))%Q).
  { assert (E' : (inject_Z k * sv * (1 + u53) == inject_Z k * (sv * (1 + u53)))%Q) by ring.
    rewrite E'. apply Qmult_le_l; [lra | exact Au]. }
  unfold u53 in *.
  apply floor_about; [assumption | unfold u53; split; lra].
Qed.

Lemma scaled_nonneg (k r : Z) : In k ks -> scaled k s = Ok r -> 0 <= r.
Proof. intros Hk E. apply (scaled_about k r Hk E). Qed.

Lemma scaled_le (j k a b : Z) :
  In j ks -> In k ks -> j < k -> scaled j s = Ok a -> scaled k s = Ok b -> a <= b.
Proof.
  intros Hj Hk Hjk Ea Eb. pose proof sv_lower as L.
  destruct (scaled_cases j Hj) as [(vj & E' & Vj0 & [Jl Ju]) | [E' _]]; rewrite Ea in E'; [|discriminate].
  injection E' as ->.
  destruct (scaled_cases k Hk) as [(vk & E' & Vk0 & [Kl Ku]) | [E' _]]; rewrite Eb in E'; [|discriminate].
  injection E' as ->.
  apply Qfloor_resp_le.
  assert (J48 : (inject_Z j <= 48)%Q).
  { change 48%Q with (inject_Z 48). rewrite <- Zle_Qle. unfold ks in Hj. cbn [In] in Hj. lia. }
  assert (D : (1 <= inject_Z k - inject_Z j)%Q).
  { assert (D' : (inject_Z (j + 1) <= inject_Z k)%Q) by (rewrite <- Zle_Qle; lia).
    rewrite inject_Z_plus in D'. change (inject_Z 1) with 1%Q in D'. lra. }
  assert (P1 : (inject_Z j * sv <= 48 * sv)%Q) by (apply Qmult_le_compat_r; lra).
  assert (P2 : (1 * sv <= (inject_Z k - inject_Z j) * sv)%Q) by (apply Qmult_le_compat_r; lra).
  unfold u53 in *. lra.
Qed.

Lemma in_ks (k : Z) : existsb (Z.eqb k) ks = true -> In k ks.
Proof.
  intros H. apply existsb_exists in H. destruct H as (x & Hx & E).
  apply Z.eqb_eq in E. subst. assumption.
Qed.

Lemma margin_facts (pm : Z) :
  scaled 24 s = Ok pm ->
  0 <= pm /\ 0 < size - 2 * pm /\ (16 <= size -> 2 <= pm)
  /\ about pm (24 * S).
Proof.
  intros E. pose proof (scaled_about 24 pm (in_ks 24 eq_refl) E) as A.
  change (inject_Z 24) with 24%Q in A.
  pose proof size_ge1 as S1.
  split; [apply A|]. split; [|split; [|exact A]].
  - destruct A as [_ [_ Au]]. to_Q_goal. subst S. unfold u53 in *. lra.
  - intros H16. destruct (Z.eq_dec size 16) as [E16|N16].
    + clear A. subst S sv. subst size. vm_compute in Hs. injection Hs as <-.
      vm_compute in E. injection E as <-. lia.
    + destruct scale_normal as [N [Al Au]].
      destruct (scaled_cases 24 (in_ks 24 eq_refl)) as [(v & E' & V0 & [Ml Mu]) | [E' _]];
        rewrite E in E'; [|discriminate].
      injection E' as ->. change 2 with (Qfloor 2). apply Qfloor_resp_le.
      assert (S17 : (17 <= inject_Z size)%Q)
        by (change 17%Q with (inject_Z 17); rewrite <- Zle_Qle; lia).
      change (inject_Z 24) with 24%Q in *. subst S. unfold u53 in *. lra.
Qed.

Lemma paper_cases :
  (exists p, paper_geometry size s = Ok p /\ paper_ok size s p)
  \/ (paper_geometry size s = Raise OverflowError /\ 2 ^ 1000 <= size).
Proof.
  unfold paper_geometry.
  destruct (scaled_cases 24 (in_ks 24 eq_refl)) as [(v & E & _) | [E B]].
  - rewrite E. cbn [mbind result_bind].
    destruct (margin_facts _ E) as (M0 & W0 & _).
    destruct (int_times_about (size - 2 * Qfloor v) lit_1_2 W0 lit_1_2_normal
                (proj1 lit_1_2_range) (proj2 lit_1_2_range))
      as [(ph & Eh & _) | [Eh Bh]].
    + left. rewrite Eh. cbn [mbind result_bind]. eexists. split; [reflexivity|].
      unfold paper_ok. cbn [paper_margin paper_width paper_height paper_y]. auto.
    + right. rewrite Eh. split; [reflexivity | lia].
  - right. rewrite E. auto.
Qed.

Lemma paper_facts (p : paper) :
  paper_ok size s p ->
  0 <= paper_margin p /\ 0 < paper_width p /\ 1 <= paper_height p
  /\ (16 <= size -> 2 <= paper_margin p)
  /\ about (paper_margin p) (24 * S)
  /\ about (paper_height p) (inject_Z (paper_width p) * C12).
Proof.
  intros (Em & Ew & Eh & Ey).
  destruct (margin_facts _ Em) as (M0 & W0 & M2 & Am). rewrite <- Ew in W0.
  destruct (int_times_about (paper_width p) lit_1_2 W0 lit_1_2_normal
              (proj1 lit_1_2_range) (proj2 lit_1_2_range))
    as [(ph & Eh' & Ah) | [Eh' _]]; rewrite Eh in Eh'; [|discriminate].
  injection Eh' as <-.
  assert (Ah' : about (paper_height p) (inject_Z (paper_width p) * C12)).
  { unfold about in *. rewrite lit_1_2_value in Ah. exact Ah. }
  assert (G : 0 < paper_height p).
  { destruct Ah' as [H0 [Hl _]].
    assert (W1 : (1 <= inject_Z (paper_width p))%Q)
      by (change 1%Q with (inject_Z 1); rewrite <- Zle_Qle; lia).
    to_Q_goal. unfold C12, u53 in *. lra. }
  split; [assumption|]. split; [assumption|]. split; [lia|]. split; [assumption|].
  split; assumption.
Qed.

Lemma line_cases (p : paper) :
  (exists l, line_geometry p s = Ok l /\ lines_ok s p l)
  \/ (line_geometry p s = Raise OverflowError /\ 2 ^ 1000 <= size).
Proof.
  unfold line_geometry.
  destruct (scaled_cases 16 (in_ks 16 eq_refl)) as [(v16 & E16 & _) | [E B]];
    [rewrite E16; cbn [mbind result_bind] | right; rewrite E; auto].
  destruct (scaled_cases 12 (in_ks 12 eq_refl)) as [(v12 & E12 & _) | [E B]];
    [rewrite E12; cbn [mbind result_bind] | right; rewrite E; auto].
  destruct (scaled_cases 20 (in_ks 20 eq_refl)) as [(v20 & E20 & _) | [E B]];
    [rewrite E20; cbn [mbind result_bind] | right; rewrite E; auto].
  left. eexists. split; [reflexivity|].
  unfold lines_ok. cbn [line_spacing line_margin line_start]. eauto.
Qed.

Lemma lines_facts (p : paper) (l : lines) (i40 : Z) :
  paper_ok size s p -> lines_ok s p l ->
  scaled 40 s = Ok i40 ->
  0 <= line_spacing l /\ 0 <= line_margin l /\ paper_y p <= line_start l
  /\ 1 <= full_width p l <= size /\ 0 <= i40
  /\ line_start l + 5 * line_spacing l <= paper_y p + paper_height p - i40.
Proof.
  intros Hp (E16 & E12 & i20 & E20 & Est) E40.
  destruct (paper_facts p Hp) as (M0 & W0 & H1 & _ & Am & Ah).
  destruct Hp as (_ & Ew & _).
  pose proof (scaled_about 16 _ (in_ks 16 eq_refl) E16) as A16.
  pose proof (scaled_about 12 _ (in_ks 12 eq_refl) E12) as A12.
  pose proof (scaled_about 20 _ (in_ks 20 eq_refl) E20) as A20.
  pose proof (scaled_about 40 _ (in_ks 40 eq_refl) E40) as A40.
  pose proof size_ge1 as S1.
  destruct A16 as [N16 [_ U16]], A12 as [N12 [_ U12]], A20 as [N20 [_ U20]],
           A40 as [N40 [_ U40]], Am as [_ [_ Um]], Ah as [_ [Lh _]].
  unfold full_width. rewrite Ew, Est in *.
  assert (F : 0 < size - 2 * paper_margin p - 2 * line_margin l).
  { to_Q_goal. numerals. subst S. unfold u53 in *. lra. }
  assert (G : i20 + 5 * line_spacing l + i40 - 1 < paper_height p).
  { to_Q_goal. numerals.
    assert (Ew' : (inject_Z (size - 2 * paper_margin p) == inject_Z size - 2 * inject_Z (paper_margin p))%Q).
    { unfold Z.sub. rewrite inject_Z_plus, inject_Z_opp, inject_Z_mult. reflexivity. }
    rewrite Ew' in Lh. subst S. unfold C12, u53 in *. lra. }
  repeat split; lia.
Qed.

Lemma thickness_facts (i40 i2 : Z) :
  scaled 40 s = Ok i40 -> scaled 2 s = Ok i2 -> 0 <= i2 <= i40.
Proof.
  intros E40 E2. split.
  - apply (scaled_nonneg 2 _ (in_ks 2 eq_refl) E2).
  - apply (scaled_le 2 40 _ _ (in_ks 2 eq_refl) (in_ks 40 eq_refl) eq_refl E2 E40).
Qed.

Lemma w4_facts (p : paper) (l : lines) (w4 : Z) :
  1 <= full_width p l -> int_times (full_width p l) lit_0_6 = Ok w4 ->
  0 <= w4 < full_width p l.
Proof.
  intros F E.
  destruct (int_times_about (full_width p l) lit_0_6 ltac:(lia) lit_0_6_normal
              (proj1 lit_0_6_range) (proj2 lit_0_6_range))
    as [(r & E' & A) | [E' _]]; rewrite E in E'; [|discriminate].
  injection E' as <-. unfold about in A. rewrite lit_0_6_value in A.
  destruct A as [N [_ U]]. split; [assumption|].
  assert (F1 : (1 <= inject_Z (full_width p l))%Q)
    by (change 1%Q with (inject_Z 1); rewrite <- Zle_Qle; lia).
  rewrite Zlt_Qlt. unfold C06, u53 in *. lra.
Qed.

(** One turn of the loop that does not leave it. *)
Lemma receipt_lines_cons {St : Type} (draw : rect -> St -> result St)
    (p : paper) (l : lines) (i : Z) (rest : list Z) (st : St) (i40 i2 : Z) :
  scaled 40 s = Ok i40 -> scaled 2 s = Ok i2 ->
  line_start l + i * line_spacing l <= paper_y p + paper_height p - i40 ->
  receipt_lines draw s p l (i :: rest) st =
    (lw ← (if i =? 4 then int_times (full_width p l) lit_0_6 else Ok (full_width p l));
     st' ← draw (line_rect p l i2 lw i) st;
     receipt_lines draw s p l rest st').
Proof.
  intros E40 E2 Hy. cbn [receipt_lines]. rewrite E40. cbn [mbind result_bind].
  destruct (Z.gtb_spec (line_start l + i * line_spacing l) (paper_y p + paper_height p - i40));
    [lia|].
  fold (full_width p l).
  destruct (if i =? 4 then int_times (full_width p l) lit_0_6 else Ok (full_width p l));
    [|reflexivity].
  rewrite E2. reflexivity.
Qed.

Lemma receipt_lines_all {St : Type} (draw : rect -> St -> result St)
    (p : paper) (l : lines) (i40 i2 w4 : Z) (range : list Z) :
  scaled 40 s = Ok i40 -> scaled 2 s = Ok i2 ->
  int_times (full_width p l) lit_0_6 = Ok w4 ->
  Forall (fun i => line_start l + i * line_spacing l <= paper_y p + paper_height p - i40) range ->
  forall st,
    receipt_lines draw s p l range st =
    draw_all draw (map (fun i => line_rect p l i2 (line_width_at p l w4 i) i) range) st.
Proof.
  intros E40 E2 Ew H. induction H as [|i rest Hi _ IH]; intros st; [reflexivity|].
  rewrite (receipt_lines_cons draw p l i rest st i40 i2 E40 E2 Hi).
  cbn [map draw_all].
  replace (if i =? 4 then int_times (full_width p l) lit_0_6 else Ok (full_width p l))
    with (Ok (A:=Z) (line_width_at p l w4 i))
    by (unfold line_width_at; destruct (i =? 4); [rewrite Ew|]; reflexivity).
  cbn [mbind result_bind].
  destruct (draw (line_rect p l i2 (line_width_at p l w4 i) i) st); [apply IH | reflexivity].
Qed.

Lemma range6_in_reach (p : paper) (l : lines) (i40 : Z) :
  0 <= line_spacing l ->
  line_start l + 5 * line_spacing l <= paper_y p + paper_height p - i40 ->
  Forall (fun i => line_start l + i * line_spacing l <= paper_y p + paper_height p - i40) range6.
Proof. intros H0 H5. unfold range6. repeat constructor; lia. Qed.

Lemma lines_loop_cases {St : Type} (draw : rect -> St -> result St)
    (p : paper) (l : lines) (st : St) :
  paper_ok size s p -> lines_ok s p l ->
  (forall r st, well_formed r -> exists st', draw r st = Ok st') ->
  (exists i40 i2 w4,
      scaled 40 s = Ok i40 /\ scaled 2 s = Ok i2
      /\ int_times (full_width p l) lit_0_6 = Ok w4
      /\ receipt_lines draw s p l range6 st =
         draw_all draw (map (fun i => line_rect p l i2 (line_width_at p l w4 i) i) range6) st)
  \/ (receipt_lines draw s p l range6 st = Raise OverflowError /\ 2 ^ 1000 <= size).
Proof.
  intros Hp Hl Hdraw.
  destruct (scaled_cases 40 (in_ks 40 eq_refl)) as [(v40 & E40 & _) | [E B]];
    [| right; unfold range6; cbn [receipt_lines]; rewrite E; auto].
  destruct (lines_facts p l _ Hp Hl E40) as (L0 & M0 & Y0 & [F1 F2] & N40 & Y5).
  pose proof (range6_in_reach p l _ L0 Y5) as R.
  destruct (scaled_cases 2 (in_ks 2 eq_refl)) as [(v2 & E2 & _) | [E B]].
  2:{ right. split; [|assumption]. unfold range6. cbn [receipt_lines]. rewrite E40.
      cbn [mbind result_bind Z.eqb].
      destruct (Z.gtb_spec (line_start l + 0 * line_spacing l)
                  (paper_y p + paper_height p - Qfloor v40)); [lia|].
      rewrite E. reflexivity. }
  destruct (thickness_facts _ _ E40 E2) as [T0 T1].
  destruct (int_times_about (full_width p l) lit_0_6 ltac:(lia) lit_0_6_normal
              (proj1 lit_0_6_range) (proj2 lit_0_6_range))
    as [(w4 & Ew & _) | [Ew B]].
  - left. exists (Qfloor v40), (Qfloor v2), w4. repeat (split; [assumption|]).
    apply (receipt_lines_all draw p l _ _ _ range6 E40 E2 Ew R).
  - right. split; [|lia]. unfold range6.
    assert (W : forall i, well_formed (line_rect p l (Qfloor v2) (full_width p l) i))
      by (intros i; unfold well_formed, line_rect; cbn [x0 x1 y0 y1]; lia).
    inversion R as [|? ? R0 R']; subst. inversion R' as [|? ? R1 R'']; subst.
    inversion R'' as [|? ? R2 R3']; subst. inversion R3' as [|? ? R3 R4']; subst.
    inversion R4' as [|? ? R4 _]; subst.
    rewrite (receipt_lines_cons draw p l 0 _ st _ _ E40 E2 R0). cbn [Z.eqb mbind result_bind].
    destruct (Hdraw _ st (W 0)) as [st1 ->]. cbn [mbind result_bind].
    rewrite (receipt_lines_cons draw p l 1 _ st1 _ _ E40 E2 R1). cbn [Z.eqb Pos.eqb mbind result_bind].
    destruct (Hdraw _ st1 (W 1)) as [st2 ->]. cbn [mbind result_bind].
    rewrite (receipt_lines_cons draw p l 2 _ st2 _ _ E40 E2 R2). cbn [Z.eqb Pos.eqb mbind result_bind].
    destruct (Hdraw _ st2 (W 2)) as [st3 ->]. cbn [mbind result_bind].
    rewrite (receipt_lines_cons draw p l 3 _ st3 _ _ E40 E2 R3). cbn [Z.eqb Pos.eqb mbind result_bind].
    destruct (Hdraw _ st3 (W 3)) as [st4 ->]. cbn [mbind result_bind].
    rewrite (receipt_lines_cons draw p l 4 _ st4 _ _ E40 E2 R4). cbn [Z.eqb Pos.eqb mbind result_bind].
    rewrite Ew. reflexivity.
Qed.

Lemma button_cases (p : paper) :
  paper_ok size s p ->
  (exists b, button_rect p s = Ok b /\ button_ok s p b)
  \/ (button_rect p s = Raise OverflowError /\ 2 ^ 1000 <= size).
Proof.
  intros Hp. destruct (paper_facts p Hp) as (M0 & W0 & _).
  destruct Hp as (_ & Ew & _).
  unfold button_rect.
  destruct (int_times_about (paper_width p) lit_0_7 W0 lit_0_7_normal
              (proj1 lit_0_7_range) (proj2 lit_0_7_range))
    as [(bw & Eb & _) | [Eb B]]; [rewrite Eb | right; rewrite Eb; split; [reflexivity | lia]].
  cbn [mbind result_bind].
  destruct (scaled_cases 20 (in_ks 20 eq_refl)) as [(v20 & E20 & _) | [E B]];
    [rewrite E20; cbn [mbind result_bind] | right; rewrite E; auto].
  destruct (scaled_cases 35 (in_ks 35 eq_refl)) as [(v35 & E35 & _) | [E B]];
    [rewrite E35; cbn [mbind result_bind] | right; rewrite E; auto].
  left. eexists. split; [reflexivity|]. unfold button_ok. eauto 10.
Qed.

Lemma button_facts (p : paper) (b : rect) :
  paper_ok size s p -> button_ok s p b ->
  well_formed b /\ inside_columns (paper_rect p) b /\ y1 b <= y1 (paper_rect p).
Proof.
  intros Hp (bw & bh & i35 & Eb & E20 & E35 & ->).
  destruct (paper_facts p Hp) as (M0 & W0 & _).
  destruct (int_times_about (paper_width p) lit_0_7 W0 lit_0_7_normal
              (proj1 lit_0_7_range) (proj2 lit_0_7_range))
    as [(r & E' & A) | [E' _]]; rewrite Eb in E'; [|discriminate].
  injection E' as <-. unfold about in A. rewrite lit_0_7_value in A.
  destruct A as [N [_ U]].
  assert (W1 : (1 <= inject_Z (paper_width p))%Q)
    by (change 1%Q with (inject_Z 1); rewrite <- Zle_Qle; lia).
  assert (Bw : bw < paper_width p) by (rewrite Zlt_Qlt; unfold C07, u53 in *; lra).
  pose proof (scaled_nonneg 20 _ (in_ks 20 eq_refl) E20) as H20.
  pose proof (scaled_le 20 35 _ _ (in_ks 20 eq_refl) (in_ks 35 eq_refl) eq_refl E20 E35) as H35.
  assert (D : 0 <= (paper_width p - bw) / 2 <= paper_width p - bw).
  { split; [apply Z.div_pos; lia | apply Z.div_le_upper_bound; lia]. }
  unfold well_formed, inside_columns, paper_rect. cbn [x0 x1 y0 y1]. lia.
Qed.

Lemma text_cases (f : font) :
  (exists tx ty, text_origin size s f = Ok (tx, ty))
  \/ (text_origin size s f = Raise OverflowError /\ 2 ^ 1000 <= size).
Proof.
  unfold text_origin. destruct (textbbox f "R") as [[[bx0 by0] bx1] by1].
  destruct (scaled_cases 10 (in_ks 10 eq_refl)) as [(v10 & E & _) | [E B]]; rewrite E.
  - left. cbn [mbind result_bind]. eauto.
  - right. auto.
Qed.

Lemma line_boxes_facts (p : paper) (l : lines) (i40 i2 w4 : Z) :
  paper_ok size s p -> lines_ok s p l ->
  scaled 40 s = Ok i40 -> scaled 2 s = Ok i2 ->
  int_times (full_width p l) lit_0_6 = Ok w4 ->
  Forall (fun r => well_formed r /\ inside (paper_rect p) r) (line_boxes p l i2 w4).
Proof.
  intros Hp Hl E40 E2 Ew.
  destruct (lines_facts p l _ Hp Hl E40) as (L0 & M0 & Y0 & [F1 F2] & N40 & Y5).
  destruct (thickness_facts _ _ E40 E2) as [T0 T1].
  destruct (w4_facts p l w4 F1 Ew) as [W0 W1].
  destruct (paper_facts p Hp) as (P0 & PW & PH & _).
  unfold full_width in *.
  unfold line_boxes, range6. cbn [map].
  repeat constructor;
    unfold well_formed, inside, line_rect, line_width_at, paper_rect, full_width;
    cbn [x0 x1 y0 y1 Z.eqb Pos.eqb]; lia.
Qed.
End Run.

Lemma draw_rectangle_ok (r : rect) (fill : color) (outline : option color) (img : image) :
  well_formed r -> exists img', draw_rectangle r fill outline img = Ok img'.
Proof.
  intros [Hx Hy]. unfold draw_rectangle.
  destruct (Z.ltb_spec (x1 r) (x0 r)); [lia|]. destruct (Z.ltb_spec (y1 r) (y0 r)); [lia|].
  cbn [orb]. eauto.
Qed.

Lemma draw_all_ok (fill : color) (rs : list rect) :
  Forall well_formed rs ->
  forall img, exists img', draw_all (fun r => draw_rectangle r fill None) rs img = Ok img'.
Proof.
  induction 1 as [|r rs Hr _ IH]; intros img; cbn [draw_all]; [eauto|].
  destruct (draw_rectangle_ok r fill None img Hr) as [img' ->]. cbn [mbind result_bind]. apply IH.
Qed.

Lemma select_font_ok (env : font_env) (s : spec_float) : exists f, select_font env s = Ok f.
Proof.
  unfold select_font, try_except.
  destruct (font_size ← scaled 48 s; truetype env "arial.ttf" font_size); eauto.
Qed.

(** What [Image.new] accepts. *)
Lemma Image_new_ok (mode : string) (w h : Z) (c : color) (img : image) :
  Image_new mode w h c = Ok img ->
  0 <= w <= max_line /\ 0 <= h < int_limit
  /\ img = {| im_mode := mode; im_width := w; im_height := h; im_data := fun _ _ => c |}.
Proof.
  unfold Image_new.
  destruct (Z.ltb_spec w 0); [discriminate|]. destruct (Z.ltb_spec h 0); [discriminate|].
  cbn [orb].
  destruct (Z.leb_spec int_limit w); [discriminate|].
  destruct (Z.leb_spec int_limit h); [discriminate|]. cbn [orb].
  destruct (Z.ltb_spec max_line w); [discriminate|].
  intros [= <-]. repeat split; lia.
Qed.

Lemma max_line_small : max_line < 2 ^ 1000.
Proof. reflexivity. Qed.

(** Once the canvas exists, a call on a positive size completes, having
    gone through the steps of [rendered]. *)
Lemma create_steps (env : font_env) (size : Z) (img0 : image) :
  0 < size -> Image_new "RGBA" size size background = Ok img0 ->
  exists img, create_receipt_icon env size = Ok img /\ rendered env size img.
Proof.
  intros Hsize E0.
  assert (Hlim : size < 2 ^ 1000).
  { destruct (Image_new_ok _ _ _ _ _ E0) as ([_ Hw] & _).
    apply Z.le_lt_trans with max_line; [assumption | exact max_line_small]. }
  unfold create_receipt_icon. rewrite E0. cbn [mbind result_bind].
  destruct (py_truediv_spec size Hsize) as [(s & Es & _) | [Es Hh]].
  2:{ exfalso. assert (B : 2 ^ 1000 <= size); [|lia]. apply huge_big.
      pose proof (size_ge1 size Hsize). lra. }
  rewrite Es. cbn [mbind result_bind].
  destruct (paper_cases size s Hsize Es) as [(p & Ep & Hp) | [Ep B]];
    [rewrite Ep; cbn [mbind result_bind] | lia].
  destruct (paper_facts size s Hsize Es p Hp) as (P0 & PW & PH & _).
  destruct (draw_rectangle_ok (paper_rect p) white (Some light_gray) img0) as [img1 E1].
  { unfold well_formed, paper_rect. cbn [x0 x1 y0 y1]. lia. }
  rewrite E1. cbn [mbind result_bind].
  destruct (line_cases size s Hsize Es p) as [(l & El & Hl) | [El B]];
    [rewrite El; cbn [mbind result_bind] | lia].
  destruct (lines_loop_cases size s Hsize Es (fun r => draw_rectangle r background None) p l img1 Hp Hl)
    as [(i40 & i2 & w4 & E40 & E2 & Ew & Eloop) | [Eloop B]];
    [intros r st; apply draw_rectangle_ok | | lia].
  pose proof (line_boxes_facts size s Hsize Es p l i40 i2 w4 Hp Hl E40 E2 Ew) as LB.
  destruct (draw_all_ok background (line_boxes p l i2 w4)) with (img := img1) as [img2 E2'].
  { eapply Forall_impl; [exact LB|]. intros r [H _]. exact H. }
  fold (line_boxes p l i2 w4) in Eloop. rewrite Eloop, E2'. cbn [mbind result_bind].
  destruct (button_cases size s Hsize Es p Hp) as [(b & Eb & Hb) | [Eb B]];
    [rewrite Eb; cbn [mbind result_bind] | lia].
  destruct (button_facts size s Hsize Es p b Hp Hb) as (Wb & _).
  destruct (draw_rectangle_ok b blue None img2 Wb) as [img3 E3].
  rewrite E3. cbn [mbind result_bind].
  destruct (select_font_ok env s) as [f Ef]. rewrite Ef. cbn [mbind result_bind].
  destruct (text_cases size s Hsize Es f) as [(tx & ty & Et) | [Et B]];
    [rewrite Et; cbn [mbind result_bind] | lia].
  eexists. split; [reflexivity|].
  eapply Rendered; eassumption.
Qed.

(** Every call on a positive size either completes, having gone through the
    steps of [rendered], or ends with the error of [Image.new]. *)
Lemma create_cases (env : font_env) (size : Z) :
  0 < size ->
  (exists img, create_receipt_icon env size = Ok img /\ rendered env size img)
  \/ (exists e, Image_new "RGBA" size size background = Raise e
                /\ create_receipt_icon env size = Raise e).
Proof.
  intros Hsize.
  destruct (Image_new "RGBA" size size background) as [img0|e] eqn:E0.
  - left. exact (create_steps env size img0 Hsize E0).
  - right. exists e. split; [reflexivity|].
    unfold create_receipt_icon. rewrite E0. reflexivity.
Qed.

(** The two sizes of the driver are within the limits of the canvas. *)
Lemma Image_new_small (size : Z) :
  0 <= size <= max_line ->
  Image_new "RGBA" size size background
  = Ok {| im_mode := "RGBA"; im_width := size; im_height := size;
          im_data := fun _ _ => background |}.
Proof.
  intros [H0 H1]. unfold Image_new.
  destruct (Z.ltb_spec size 0); [lia|]. cbn [orb].
  assert (M : max_line < int_limit) by reflexivity.
  destruct (Z.leb_spec int_limit size); [lia|]. cbn [orb].
  destruct (Z.ltb_spec max_line size); [lia|]. reflexivity.
Qed.

(* ===================================================================== *)
(** * The geometry of a completed call *)
(* ===================================================================== *)

Lemma paper_geometry_ok (size : Z) (s : spec_float) (p : paper) :
  0 < size -> py_truediv size 192 = Ok s -> paper_geometry size s = Ok p ->
  paper_ok size s p.
Proof.
  intros Hsize Hs Hp.
  destruct (paper_cases size s Hsize Hs) as [(p' & E & H) | [E _]]; rewrite Hp in E.
  - injection E as <-. assumption.
  - discriminate.
Qed.

Lemma line_geometry_ok (size : Z) (s : spec_float) (p : paper) (l : lines) :
  0 < size -> py_truediv size 192 = Ok s -> line_geometry p s = Ok l ->
  lines_ok s p l.
Proof.
  intros Hsize Hs Hl.
  destruct (line_cases size s Hsize Hs p) as [(l' & E & H) | [E _]]; rewrite Hl in E.
  - injection E as <-. assumption.
  - discriminate.
Qed.

Lemma button_rect_ok (size : Z) (s : spec_float) (p : paper) (b : rect) :
  0 < size -> py_truediv size 192 = Ok s -> paper_ok size s p ->
  button_rect p s = Ok b -> button_ok s p b.
Proof.
  intros Hsize Hs Hp Hb.
  destruct (button_cases size s Hsize Hs p Hp) as [(b' & E & H) | [E _]]; rewrite Hb in E.
  - injection E as <-. assumption.
  - discriminate.
Qed.

Lemma draw_all_log (rs acc : list rect) :
  draw_all (fun r acc => Ok (acc ++ [r])) rs acc = Ok (acc ++ rs).
Proof.
  revert acc. induction rs as [|r rs IH]; intros acc; cbn [draw_all].
  - rewrite app_nil_r. reflexivity.
  - cbn [mbind result_bind]. rewrite IH, <- app_assoc. reflexivity.
Qed.

Lemma drawn_lines_ok (size : Z) (s : spec_float) (p : paper) (l : lines) (rects : list rect) :
  0 < size -> py_truediv size 192 = Ok s -> paper_ok size s p -> lines_ok s p l ->
  drawn_lines s p l = Ok rects ->
  exists i40 i2 w4,
    scaled 40 s = Ok i40 /\ scaled 2 s = Ok i2
    /\ int_times (full_width p l) lit_0_6 = Ok w4
    /\ rects = line_boxes p l i2 w4.
Proof.
  intros Hsize Hs Hp Hl Hd. unfold drawn_lines in Hd.
  destruct (lines_loop_cases size s Hsize Hs (fun r acc => Ok (acc ++ [r])) p l [] Hp Hl)
    as [(i40 & i2 & w4 & E40 & E2 & Ew & E) | [E _]].
  - intros r st _. eauto.
  - exists i40, i2, w4. repeat (split; [assumption|]).
    rewrite Hd, draw_all_log in E. injection E as ->. reflexivity.
  - rewrite Hd in E. discriminate.
Qed.

(** The loop, whatever the paper: it draws the lines of the longest prefix
    of indices that are in reach, and nothing after. *)
Lemma receipt_lines_prefix {St : Type} (draw : rect -> St -> result St)
    (s : spec_float) (p : paper) (l : lines) (i40 i2 w4 : Z) (range : list Z) :
  scaled 40 s = Ok i40 -> scaled 2 s = Ok i2 ->
  int_times (full_width p l) lit_0_6 = Ok w4 ->
  forall st,
    receipt_lines draw s p l range st =
    draw_all draw
      (map (fun i => line_rect p l i2 (line_width_at p l w4 i) i)
           (prefix_while (in_reach p l i40) range)) st.
Proof.
  intros E40 E2 Ew. induction range as [|i rest IH]; intros st; [reflexivity|].
  cbn [prefix_while]. unfold in_reach at 1.
  destruct (Z.gtb_spec (line_start l + i * line_spacing l) (paper_y p + paper_height p - i40))
    as [Hgt|Hle]; cbn [negb].
  - cbn [receipt_lines map draw_all]. rewrite E40. cbn [mbind result_bind].
    destruct (Z.gtb_spec (line_start l + i * line_spacing l) (paper_y p + paper_height p - i40));
      [reflexivity | lia].
  - rewrite (receipt_lines_cons s draw p l i rest st i40 i2 E40 E2 Hle).
    cbn [map draw_all].
    replace (if i =? 4 then int_times (full_width p l) lit_0_6 else Ok (full_width p l))
      with (Ok (A:=Z) (line_width_at p l w4 i))
      by (unfold line_width_at; destruct (i =? 4); [rewrite Ew|]; reflexivity).
    cbn [mbind result_bind].
    destruct (draw (line_rect p l i2 (line_width_at p l w4 i) i) st); [apply IH | reflexivity].
Qed.

(* ===================================================================== *)
(** * The claims *)
(* ===================================================================== *)

(** C1, as stated, fails: at size 192 the paper is 144 wide and 172 high,
    while 144 * 1.2 rounds to 173.  The script truncates with [int]. *)
Lemma paper_height_is_not_rounded :
  exists s p,
    py_truediv 192 192 = Ok s /\ paper_geometry 192 s = Ok p
    /\ paper_width p = 144 /\ paper_height p = 172
    /\ round_nearest (inject_Z (paper_width p) * (12 # 10)) = 173
    /\ paper_height p <> round_nearest (inject_Z (paper_width p) * (12 # 10)).
Proof.
  eexists. eexists. split; [vm_compute; reflexivity|].
  split; [vm_compute; reflexivity|]. cbn [paper_width paper_height].
  split; [reflexivity|]. split; [reflexivity|]. split; [reflexivity|]. vm_compute. discriminate.
Qed.

(** An integer part that is near [y] is [round y] or one less. *)
Lemma near_round (r : Z) (y : Q) :
  (inject_Z r <= y + (1 # 2))%Q -> (y - (3 # 2) < inject_Z r)%Q ->
  r <= round_nearest y <= r + 1.
Proof.
  intros Hu Hl. unfold round_nearest. split.
  - rewrite <- (Qfloor_Z r). apply Qfloor_resp_le. exact Hu.
  - pose proof (Qfloor_le (y + (1 # 2))) as F.
    assert (G : (inject_Z (Qfloor (y + (1 # 2))) < inject_Z (r + 2))%Q).
    { rewrite inject_Z_plus. change (inject_Z 2) with 2%Q. lra. }
    rewrite <- Zlt_Qlt in G. lia.
Qed.

(** C1, amended: for every positive size, the paper's margin is
    [int(24 * scale)], its width is the size less twice the margin and its
    height is [int(width * 1.2)], the products being binary64 products and
    [int] truncating.  Margin and height are the integer parts of values
    within a relative 2^-51 of 24 * size / 192 and of width * 1.2; for a
    size below 2^31 each is the rounded value or one less.  At sizes 192
    and 512 the paper is 144 by 172 and 384 by 460. *)
Theorem paper_rectangle_is_truncated (size : Z) (s : spec_float) (p : paper) :
  0 < size -> py_truediv size 192 = Ok s -> paper_geometry size s = Ok p ->
  scaled 24 s = Ok (paper_margin p)
  /\ paper_width p = size - 2 * paper_margin p
  /\ int_times (paper_width p) lit_1_2 = Ok (paper_height p)
  /\ about (paper_margin p) (24 * (inject_Z size * (1 # 192)))
  /\ about (paper_height p) (inject_Z (paper_width p) * C12)
  /\ (size < 2 ^ 31 ->
      paper_margin p <= round_nearest (24 * (inject_Z size * (1 # 192)))
                     <= paper_margin p + 1
      /\ paper_height p <= round_nearest (inject_Z (paper_width p) * (12 # 10))
                        <= paper_height p + 1)
  /\ (size = 192 -> paper_width p = 144 /\ paper_height p = 172)
  /\ (size = 512 -> paper_width p = 384 /\ paper_height p = 460).
Proof.
  intros Hsize Hs Hp.
  pose proof (paper_geometry_ok size s p Hsize Hs Hp) as Ok_p.
  destruct (paper_facts size s Hsize Hs p Ok_p) as (_ & W0 & _ & _ & Am & Ah).
  destruct Ok_p as (Em & Ew & Eh & _).
  repeat (split; [assumption|]). split; [|split].
  - intros Hlim.
    assert (S0 : (0 < inject_Z size)%Q)
      by (change 0%Q with (inject_Z 0); rewrite <- Zlt_Qlt; lia).
    assert (S1 : (inject_Z size < 2147483648)%Q)
      by (change 2147483648%Q with (inject_Z (2 ^ 31)); rewrite <- Zlt_Qlt; lia).
    assert (W1 : (0 < inject_Z (paper_width p))%Q)
      by (change 0%Q with (inject_Z 0); rewrite <- Zlt_Qlt; lia).
    assert (W2 : (inject_Z (paper_width p) < 2147483648)%Q).
    { change 2147483648%Q with (inject_Z (2 ^ 31)). rewrite <- Zlt_Qlt.
      pose proof (scaled_nonneg size s Hsize Hs 24 _ (in_ks 24 eq_refl) Em). lia. }
    destruct Am as [_ [Ml Mu]], Ah as [_ [Hl Hu]].
    split; apply near_round; unfold C12, u53 in *; lra.
  - intros ->. vm_compute in Hs. injection Hs as <-.
    vm_compute in Hp. injection Hp as <-. split; reflexivity.
  - intros ->. vm_compute in Hs. injection Hs as <-.
    vm_compute in Hp. injection Hp as <-. split; reflexivity.
Qed.

Lemma paper_rectangle_is_truncated_witness :
  exists s p,
    py_truediv 192 192 = Ok s /\ paper_geometry 192 s = Ok p
    /\ scaled 24 s = Ok (paper_margin p)
    /\ paper_width p = 192 - 2 * paper_margin p
    /\ int_times (paper_width p) lit_1_2 = Ok (paper_height p)
    /\ paper_height p <= round_nearest (inject_Z (paper_width p) * (12 # 10))
                      <= paper_height p + 1.
Proof.
  eexists. eexists.
  assert (Hs : py_truediv 192 192 = Ok (Float64.quotient 192 192)) by (vm_compute; reflexivity).
  assert (Hp : paper_geometry 192 (Float64.quotient 192 192)
               = Ok {| paper_margin := 24; paper_width := 144; paper_height := 172; paper_y := 10 |})
    by (vm_compute; reflexivity).
  split; [exact Hs|]. split; [exact Hp|].
  destruct (paper_rectangle_is_truncated 192 _ _ ltac:(lia) Hs Hp) as (A & B & C & _ & _ & D & _).
  split; [exact A|]. split; [exact B|]. split; [exact C|].
  exact (proj2 (D ltac:(reflexivity))).
Defined.

(** C3: of the six candidate lines, all are drawn; the one at index 4 has
    width [int(full * 0.6)], which is less than the full width
    [paper_width - 2 * line_margin] that the five others share. *)
Theorem short_line_is_index_4 (size : Z) (s : spec_float) (p : paper) (l : lines)
    (rects : list rect) :
  0 < size -> py_truediv size 192 = Ok s -> paper_geometry size s = Ok p ->
  line_geometry p s = Ok l -> drawn_lines s p l = Ok rects ->
  exists w4,
    int_times (paper_width p - 2 * line_margin l) lit_0_6 = Ok w4
    /\ w4 < paper_width p - 2 * line_margin l
    /\ map (fun r => x1 r - x0 r) rects =
       [paper_width p - 2 * line_margin l; paper_width p - 2 * line_margin l;
        paper_width p - 2 * line_margin l; paper_width p - 2 * line_margin l;
        w4; paper_width p - 2 * line_margin l].
Proof.
  intros Hsize Hs Hp Hl Hd.
  pose proof (paper_geometry_ok size s p Hsize Hs Hp) as Ok_p.
  pose proof (line_geometry_ok size s p l Hsize Hs Hl) as Ok_l.
  destruct (drawn_lines_ok size s p l rects Hsize Hs Ok_p Ok_l Hd)
    as (i40 & i2 & w4 & E40 & E2 & Ew & ->).
  destruct (lines_facts size s Hsize Hs p l i40 Ok_p Ok_l E40) as (_ & _ & _ & [F1 _] & _).
  destruct (w4_facts p l w4 F1 Ew) as [_ W].
  exists w4. unfold full_width in *. split; [assumption|]. split; [assumption|].
  unfold line_boxes, range6, line_rect, line_width_at, full_width.
  cbn [map x0 x1 Z.eqb Pos.eqb].
  repeat (apply (f_equal2 (@cons Z)); [lia|]). reflexivity.
Qed.

Lemma short_line_is_index_4_witness :
  exists s p l rects w4,
    py_truediv 192 192 = Ok s /\ paper_geometry 192 s = Ok p
    /\ line_geometry p s = Ok l /\ drawn_lines s p l = Ok rects
    /\ int_times (paper_width p - 2 * line_margin l) lit_0_6 = Ok w4
    /\ map (fun r => x1 r - x0 r) rects = [120; 120; 120; 120; w4; 120] /\ w4 = 72.
Proof.
  assert (Hs : py_truediv 192 192 = Ok (Float64.quotient 192 192)) by (vm_compute; reflexivity).
  assert (Hp : paper_geometry 192 (Float64.quotient 192 192)
               = Ok {| paper_margin := 24; paper_width := 144; paper_height := 172; paper_y := 10 |})
    by (vm_compute; reflexivity).
  assert (Hl : line_geometry {| paper_margin := 24; paper_width := 144; paper_height := 172; paper_y := 10 |}
                 (Float64.quotient 192 192)
               = Ok {| line_spacing := 16; line_margin := 12; line_start := 30 |})
    by (vm_compute; reflexivity).
  eexists. eexists. eexists. eexists.
  destruct (short_line_is_index_4 192 _ _ _ _ ltac:(lia) Hs Hp Hl eq_refl) as (w4 & Ew & Hlt & Hm).
  exists w4. split; [exact Hs|]. split; [exact Hp|]. split; [exact Hl|]. split; [reflexivity|].
  split; [exact Ew|]. split; [exact Hm|].
  vm_compute in Ew. injection Ew as <-. reflexivity.
Defined.

Lemma prefix_while_all {A : Type} (test : A -> bool) (xs : list A) :
  Forall (fun x => test x = true) xs -> prefix_while test xs = xs.
Proof.
  induction 1 as [|x xs Hx _ IH]; [reflexivity|]. cbn [prefix_while]. rewrite Hx, IH. reflexivity.
Qed.

(** C4: for every positive size, the lines drawn are those of the indices
    before the first one whose [y] exceeds
    [paper_y + paper_height - int(40 * scale)], and each drawn box lies
    inside the box of the paper, across and down. *)
Theorem lines_stay_on_paper (size : Z) (s : spec_float) (p : paper) (l : lines)
    (rects : list rect) :
  0 < size -> py_truediv size 192 = Ok s -> paper_geometry size s = Ok p ->
  line_geometry p s = Ok l -> drawn_lines s p l = Ok rects ->
  (exists i40 i2 w4,
      scaled 40 s = Ok i40 /\ scaled 2 s = Ok i2
      /\ int_times (full_width p l) lit_0_6 = Ok w4
      /\ rects = map (fun i => line_rect p l i2 (line_width_at p l w4 i) i)
                     (prefix_while (in_reach p l i40) range6))
  /\ Forall (inside (paper_rect p)) rects.
Proof.
  intros Hsize Hs Hp Hl Hd.
  pose proof (paper_geometry_ok size s p Hsize Hs Hp) as Ok_p.
  pose proof (line_geometry_ok size s p l Hsize Hs Hl) as Ok_l.
  destruct (drawn_lines_ok size s p l rects Hsize Hs Ok_p Ok_l Hd)
    as (i40 & i2 & w4 & E40 & E2 & Ew & E).
  split.
  - exists i40, i2, w4. repeat (split; [assumption|]).
    unfold drawn_lines in Hd.
    rewrite (receipt_lines_prefix _ s p l i40 i2 w4 range6 E40 E2 Ew), draw_all_log in Hd.
    injection Hd as <-. reflexivity.
  - subst rects.
    pose proof (line_boxes_facts size s Hsize Hs p l i40 i2 w4 Ok_p Ok_l E40 E2 Ew) as LB.
    eapply Forall_impl; [exact LB|]. intros r [_ H]. exact H.
Qed.

Lemma lines_stay_on_paper_witness :
  exists s p l rects,
    py_truediv 512 192 = Ok s /\ paper_geometry 512 s = Ok p
    /\ line_geometry p s = Ok l /\ drawn_lines s p l = Ok rects
    /\ length rects = 6%nat /\ Forall (inside (paper_rect p)) rects.
Proof.
  assert (Hs : py_truediv 512 192 = Ok (Float64.quotient 512 192)) by (vm_compute; reflexivity).
  assert (Hp : paper_geometry 512 (Float64.quotient 512 192)
               = Ok {| paper_margin := 64; paper_width := 384; paper_height := 460; paper_y := 26 |})
    by (vm_compute; reflexivity).
  assert (Hl : line_geometry {| paper_margin := 64; paper_width := 384; paper_height := 460; paper_y := 26 |}
                 (Float64.quotient 512 192)
               = Ok {| line_spacing := 42; line_margin := 32; line_start := 79 |})
    by (vm_compute; reflexivity).
  eexists. eexists. eexists. eexists.
  split; [exact Hs|]. split; [exact Hp|]. split; [exact Hl|]. split; [reflexivity|].
  split; [reflexivity|].
  exact (proj2 (lines_stay_on_paper 512 _ _ _ _ ltac:(lia) Hs Hp Hl eq_refl)).
Defined.

(** C10: for every positive size, the scan button stays between the left
    and right edges of the paper and its bottom edge does not pass the
    bottom edge of the paper, as [int(20 * scale) <= int(35 * scale)]. *)
Theorem button_stays_on_paper (size : Z) (s : spec_float) (p : paper) (b : rect) :
  0 < size -> py_truediv size 192 = Ok s -> paper_geometry size s = Ok p ->
  button_rect p s = Ok b ->
  paper_margin p <= x0 b
  /\ x1 b <= paper_margin p + paper_width p
  /\ y1 b <= paper_y p + paper_height p
  /\ exists i20 i35, scaled 20 s = Ok i20 /\ scaled 35 s = Ok i35 /\ i20 <= i35.
Proof.
  intros Hsize Hs Hp Hb.
  pose proof (paper_geometry_ok size s p Hsize Hs Hp) as Ok_p.
  pose proof (button_rect_ok size s p b Hsize Hs Ok_p Hb) as Ok_b.
  destruct (button_facts size s Hsize Hs p b Ok_p Ok_b) as (_ & [Hl Hr] & Hy).
  unfold paper_rect in *. cbn [x0 x1 y0 y1] in *.
  repeat (split; [assumption|]).
  destruct Ok_b as (bw & bh & i35 & _ & E20 & E35 & _).
  exists bh, i35. repeat (split; [assumption|]).
  exact (scaled_le size s Hsize Hs 20 35 bh i35 (in_ks 20 eq_refl) (in_ks 35 eq_refl) eq_refl E20 E35).
Qed.

Lemma button_stays_on_paper_witness :
  exists s p b,
    py_truediv 192 192 = Ok s /\ paper_geometry 192 s = Ok p /\ button_rect p s = Ok b
    /\ b = {| x0 := 46; y0 := 147; x1 := 146; y1 := 167 |}
    /\ paper_margin p <= x0 b /\ x1 b <= paper_margin p + paper_width p
    /\ y1 b <= paper_y p + paper_height p.
Proof.
  assert (Hs : py_truediv 192 192 = Ok (Float64.quotient 192 192)) by (vm_compute; reflexivity).
  assert (Hp : paper_geometry 192 (Float64.quotient 192 192)
               = Ok {| paper_margin := 24; paper_width := 144; paper_height := 172; paper_y := 10 |})
    by (vm_compute; reflexivity).
  assert (Hb : button_rect {| paper_margin := 24; paper_width := 144; paper_height := 172; paper_y := 10 |}
                 (Float64.quotient 192 192)
               = Ok {| x0 := 46; y0 := 147; x1 := 146; y1 := 167 |})
    by (vm_compute; reflexivity).
  eexists. eexists. eexists.
  split; [exact Hs|]. split; [exact Hp|]. split; [exact Hb|]. split; [reflexivity|].
  destruct (button_stays_on_paper 192 _ _ _ ltac:(lia) Hs Hp Hb) as (A & B & C & _).
  auto.
Defined.

(** ** Size and mode of the canvas *)


Lemma draw_rectangle_shape r fill outline img img' :
  draw_rectangle r fill outline img = Ok img' -> same_shape img' img.
Proof.
  unfold draw_rectangle. destruct ((x1 r <? x0 r) || (y1 r <? y0 r)); [discriminate|].
  intros [= <-]. repeat split.
Qed.

Lemma draw_all_shape fill rs : forall img img',
  draw_all (fun r => draw_rectangle r fill None) rs img = Ok img' -> same_shape img' img.
Proof.
  induction rs as [|r rs IH]; intros img img'; cbn [draw_all].
  - intros [= <-]. repeat split.
  - destruct (draw_rectangle r fill None img) as [img1|] eqn:E; [|discriminate].
    cbn [mbind result_bind]. intros H. apply IH in H.
    apply draw_rectangle_shape in E. unfold same_shape in *. intuition congruence.
Qed.

Lemma rendered_shape env size img :
  rendered env size img -> im_mode img = "RGBA" /\ im_width img = size /\ im_height img = size.
Proof.
  intros [s p l i40 i2 w4 b f tx ty img0 img1 img2 img3 Hs H0 Hp H1 Hl E40 E2 Ew H2 Hb H3 Hf Ht].
  destruct (Image_new_ok _ _ _ _ _ H0) as (_ & _ & ->).
  apply draw_rectangle_shape in H1, H3. apply draw_all_shape in H2.
  unfold same_shape in *. cbn [draw_text im_mode im_width im_height] in *.
  intuition congruence.
Qed.

(** C9, as stated, fails: the size 2^31 is a positive integer, and
    [Image.new] refuses it with [OverflowError], a side of the canvas
    having to fit a C [int]; the call ends there, whatever the fonts. *)
Lemma huge_size_overflows :
  0 < 2 ^ 31
  /\ Image_new "RGBA" (2 ^ 31) (2 ^ 31) background = Raise OverflowError
  /\ forall env, create_receipt_icon env (2 ^ 31) = Raise OverflowError.
Proof.
  split; [reflexivity|]. split; [reflexivity|]. intros env. reflexivity.
Qed.

(** C9, amended: on every positive size for which [Image.new] returns
    the canvas, degenerate sizes such as 1 included, the call completes
    and returns an RGBA buffer of that size by that size: no later step
    raises. *)
Theorem create_receipt_icon_total (env : font_env) (size : Z) (img0 : image) :
  0 < size -> Image_new "RGBA" size size background = Ok img0 ->
  exists img,
    create_receipt_icon env size = Ok img
    /\ im_mode img = "RGBA" /\ im_width img = size /\ im_height img = size.
Proof.
  intros Hpos E0.
  destruct (create_steps env size img0 Hpos E0) as (img & E & R).
  exists img. split; [assumption|]. apply (rendered_shape env size img R).
Qed.

Lemma create_receipt_icon_total_witness :
  0 < 1
  /\ Image_new "RGBA" 1 1 background
     = Ok {| im_mode := "RGBA"; im_width := 1; im_height := 1;
             im_data := fun _ _ => background |}
  /\ exists img,
       create_receipt_icon no_truetype 1 = Ok img
       /\ im_mode img = "RGBA" /\ im_width img = 1 /\ im_height img = 1.
Proof.
  assert (H : 0 < 1) by reflexivity.
  split; [exact H|]. split; [reflexivity|].
  exact (create_receipt_icon_total no_truetype 1 _ H eq_refl).
Defined.

(** C6: for the two requested sizes, 192 and 512, the call returns a buffer
    whose width and height are the requested size, in mode RGBA. *)
Theorem icons_have_the_requested_size (env : font_env) :
  (exists img, create_receipt_icon env 192 = Ok img
               /\ im_width img = 192 /\ im_height img = 192 /\ im_mode img = "RGBA")
  /\ (exists img, create_receipt_icon env 512 = Ok img
                  /\ im_width img = 512 /\ im_height img = 512 /\ im_mode img = "RGBA").
Proof.
  split.
  - destruct (create_steps env 192 _ ltac:(lia) (Image_new_small 192 ltac:(split; discriminate)))
      as (img & E & R).
    exists img. destruct (rendered_shape _ _ _ R) as (M & W & H). auto.
  - destruct (create_steps env 512 _ ltac:(lia) (Image_new_small 512 ltac:(split; discriminate)))
      as (img & E & R).
    exists img. destruct (rendered_shape _ _ _ R) as (M & W & H). auto.
Qed.

(** ** The font fallback *)


Lemma select_font_same (env1 env2 : font_env) (s : spec_float) :
  (forall fs, scaled 48 s = Ok fs ->
     same_outcome (truetype env1 "arial.ttf" fs) (truetype env2 "arial.ttf" fs)) ->
  load_default env1 = load_default env2 ->
  select_font env1 s = select_font env2 s.
Proof.
  intros H D. unfold select_font.
  destruct (scaled 48 s) as [fs|e] eqn:E48; cbn [mbind result_bind try_except].
  - specialize (H fs eq_refl). unfold same_outcome in H.
    destruct (truetype env1 "arial.ttf" fs), (truetype env2 "arial.ttf" fs);
      cbn [try_except]; congruence || contradiction.
  - congruence.
Qed.

(** The fonts enter a call through [select_font] only. *)
Lemma create_receipt_icon_fonts (env1 env2 : font_env) (size : Z) :
  (forall s, py_truediv size 192 = Ok s -> select_font env1 s = select_font env2 s) ->
  create_receipt_icon env1 size = create_receipt_icon env2 size.
Proof.
  intros H. unfold create_receipt_icon.
  destruct (Image_new "RGBA" size size background) as [img0|]; [|reflexivity].
  cbn [mbind result_bind].
  destruct (py_truediv size 192) as [s|] eqn:Hs; [|reflexivity]. cbn [mbind result_bind].
  destruct (paper_geometry size s) as [p|]; [|reflexivity]. cbn [mbind result_bind].
  destruct (draw_rectangle (paper_rect p) white (Some light_gray) img0) as [img1|]; [|reflexivity].
  cbn [mbind result_bind].
  destruct (line_geometry p s) as [l|]; [|reflexivity]. cbn [mbind result_bind].
  destruct (receipt_lines _ s p l range6 img1) as [img2|]; [|reflexivity].
  cbn [mbind result_bind].
  destruct (button_rect p s) as [b|]; [|reflexivity]. cbn [mbind result_bind].
  destruct (draw_rectangle b blue None img2) as [img3|]; [|reflexivity].
  cbn [mbind result_bind].
  rewrite (H s eq_refl). reflexivity.
Qed.

(** C8: two calls on the same size, in font environments where the attempt
    to load [arial.ttf] ends the same way and the default font is the
    same, return the same buffer, pixel for pixel. *)
Theorem rendering_is_deterministic (env1 env2 : font_env) (size : Z) :
  (forall s fs, py_truediv size 192 = Ok s -> scaled 48 s = Ok fs ->
     same_outcome (truetype env1 "arial.ttf" fs) (truetype env2 "arial.ttf" fs)) ->
  load_default env1 = load_default env2 ->
  create_receipt_icon env1 size = create_receipt_icon env2 size.
Proof.
  intros H D. apply create_receipt_icon_fonts. intros s Hs.
  apply select_font_same; [|assumption]. intros fs. apply H. assumption.
Qed.

Lemma rendering_is_deterministic_witness :
  create_receipt_icon only_arial 192 = create_receipt_icon any_font 192.
Proof.
  apply rendering_is_deterministic.
  - intros s fs _ _. reflexivity.
  - reflexivity.
Defined.

Lemma lookup_dir_eq (w : world) (path : string) :
  path <> EmptyString -> lookup_dir w path = fs w !! path.
Proof.
  intros H. unfold lookup_dir. destruct (String.eqb_spec path EmptyString); [contradiction | reflexivity].
Qed.


Lemma os_makedirs_icons (w : world) :
  os_makedirs icons_dir true w =
  match fs w !! "public", fs w !! icons_dir with
  | _, Some Directory =>
      (Ok (), match fs w !! "public" with None => with_node "public" Directory w | _ => w end)
  | None, None => (Ok (), with_node icons_dir Directory (with_node "public" Directory w))
  | Some Directory, None => (Ok (), with_node icons_dir Directory w)
  | Some (File _ _), None => (Raise NotADirectoryError, w)
  | None, Some (File _ _) => (Raise FileExistsError, with_node "public" Directory w)
  | Some _, Some (File _ _) => (Raise FileExistsError, w)
  end.
Proof.
  unfold os_makedirs, icons_dir.
  change (rev (split_slash "public/icons")) with ["icons"; "public"]%string.
  cbn [makedirs_rev]. 
  change (join_slash (rev ["public"%string])) with "public"%string.
  change (join_slash (rev ["icons"; "public"]%string)) with "public/icons"%string.
  change (join_slash (rev [])) with EmptyString.
  cbn [String.eqb Ascii.eqb Bool.eqb negb andb].
  unfold mbind, io_bind, io_try, path_exists, path_isdir, os_mkdir, mret, io_ret, lift.
  change (join_slash (rev ["public"%string])) with "public"%string.
  change (join_slash (rev ["icons"; "public"]%string)) with "public/icons"%string.
  change (parent_of ["icons"; "public"]%string) with "public"%string.
  change (parent_of ["public"%string]) with EmptyString.
  destruct (fs w !! "public") as [[|fa ca]|] eqn:A;
    destruct (fs w !! "public/icons") as [[|fb cb]|] eqn:B;
    repeat (first
      [ rewrite bool_decide_eq_true_2 by eauto
      | rewrite bool_decide_eq_false_2 by (intros [? ?]; discriminate)
      | rewrite lookup_dir_eq by discriminate
      | progress cbn [lookup_dir String.eqb Ascii.eqb Bool.eqb fs stdout orb negb]
      | rewrite lookup_insert_ne by discriminate
      | rewrite lookup_insert_eq
      | rewrite A | rewrite B ]);
    reflexivity.
Qed.

Lemma Image_save_icon (img : image) (path : string) (w : world) :
  path = icon_192_path \/ path = icon_512_path ->
  Image_save img path "PNG" w =
  match fs w !! path with
  | Some Directory => (Raise IsADirectoryError, w)
  | _ =>
      match fs w !! icons_dir with
      | Some Directory => (Ok (), with_node path (File "PNG" img) w)
      | Some (File _ _) => (Raise NotADirectoryError, w)
      | None => (Raise FileNotFoundError, w)
      end
  end.
Proof.
  intros [-> | ->]; unfold Image_save, icon_192_path, icon_512_path, icons_dir.
  - change (parent_of (rev (split_slash "public/icons/icon-192.png"))) with "public/icons"%string.
    rewrite !lookup_dir_eq by discriminate. reflexivity.
  - change (parent_of (rev (split_slash "public/icons/icon-512.png"))) with "public/icons"%string.
    rewrite !lookup_dir_eq by discriminate. reflexivity.
Qed.

Lemma main_steps (env : font_env) (img192 img512 : image) (w : world) :
  create_receipt_icon env 192 = Ok img192 -> create_receipt_icon env 512 = Ok img512 ->
  main env w =
  (os_makedirs icons_dir true;;
   Image_save img192 icon_192_path "PNG";;
   Image_save img512 icon_512_path "PNG";;
   print done_message) w.
Proof.
  intros E1 E2. unfold main, mbind, io_bind, lift. rewrite E1, E2. reflexivity.
Qed.



Lemma makedirs_facts (w w1 : world) (r : result ()) :
  os_makedirs icons_dir true w = (r, w1) ->
  stdout w1 = stdout w
  /\ fs w1 !! icon_192_path = fs w !! icon_192_path
  /\ fs w1 !! icon_512_path = fs w !! icon_512_path
  /\ (r = Ok () -> fs w1 !! icons_dir = Some Directory)
  /\ (fs w !! icons_dir = Some Directory -> r = Ok ())
  /\ (not_a_file (fs w !! "public") -> not_a_file (fs w !! icons_dir) -> r = Ok ()).
Proof.
  rewrite os_makedirs_icons. unfold not_a_file.
  destruct (fs w !! "public") as [[|fa ca]|] eqn:A;
    destruct (fs w !! icons_dir) as [[|fb cb]|] eqn:B;
    intros H; injection H as <- <-; unfold with_node; cbn [fs stdout];
    rewrite ?lookup_insert_eq;
    rewrite ?lookup_insert_ne by (unfold icons_dir, icon_192_path, icon_512_path; discriminate);
    rewrite ?lookup_insert_ne by (unfold icons_dir, icon_192_path, icon_512_path; discriminate);
    repeat split; try reflexivity; try assumption; try congruence;
    intros; repeat match goal with H : _ \/ _ |- _ => destruct H end; congruence.
Qed.

Lemma save_facts (img : image) (path : string) (w w1 : world) (r : result ()) :
  path = icon_192_path \/ path = icon_512_path ->
  Image_save img path "PNG" w = (r, w1) ->
  stdout w1 = stdout w
  /\ (r = Ok () -> w1 = with_node path (File "PNG" img) w)
  /\ (r <> Ok () -> w1 = w)
  /\ (fs w !! icons_dir = Some Directory -> not_a_directory (fs w !! path) -> r = Ok ())
  /\ (fs w !! path = Some Directory -> r = Raise IsADirectoryError).
Proof.
  intros Hp. rewrite (Image_save_icon img path w Hp). unfold not_a_directory.
  destruct (fs w !! path) as [[|fa ca]|] eqn:A;
    destruct (fs w !! icons_dir) as [[|fb cb]|] eqn:B;
    intros H; injection H as <- <-; unfold with_node; cbn [fs stdout];
    repeat split; try reflexivity; try congruence; intros; congruence.
Qed.

Lemma main_unfolded (env : font_env) (img192 img512 : image) (w : world) :
  create_receipt_icon env 192 = Ok img192 -> create_receipt_icon env 512 = Ok img512 ->
  main env w =
  match os_makedirs icons_dir true w with
  | (Raise e, w1) => (Raise e, w1)
  | (Ok _, w1) =>
      match Image_save img192 icon_192_path "PNG" w1 with
      | (Raise e, w2) => (Raise e, w2)
      | (Ok _, w2) =>
          match Image_save img512 icon_512_path "PNG" w2 with
          | (Raise e, w3) => (Raise e, w3)
          | (Ok _, w3) => (Ok (), {| fs := fs w3; stdout := stdout w3 ++ [done_message] |})
          end
      end
  end.
Proof.
  intros E1 E2. rewrite (main_steps env img192 img512 w E1 E2).
  unfold mbind, io_bind, print.
  destruct (os_makedirs icons_dir true w) as [[u|e] w1]; [|reflexivity].
  destruct (Image_save img192 icon_192_path "PNG" w1) as [[u2|e] w2]; [|reflexivity].
  destruct (Image_save img512 icon_512_path "PNG" w2) as [[u3|e] w3]; reflexivity.
Qed.

Lemma both_icons_render (env : font_env) :
  exists img192 img512,
    create_receipt_icon env 192 = Ok img192 /\ create_receipt_icon env 512 = Ok img512.
Proof.
  destruct (create_steps env 192 _ ltac:(lia) (Image_new_small 192 ltac:(split; discriminate)))
    as (i1 & E1 & _).
  destruct (create_steps env 512 _ ltac:(lia) (Image_new_small 512 ltac:(split; discriminate)))
    as (i2 & E2 & _).
  exists i1, i2. split; assumption.
Qed.

Ltac icon_lookups :=
  unfold with_node; cbn [fs stdout];
  repeat (rewrite lookup_insert_eq
          || rewrite lookup_insert_ne
               by (unfold icons_dir, icon_192_path, icon_512_path; discriminate)).

(** C7: the driver first makes sure [public/icons] exists (making it when
    absent, accepting it when present), then renders and saves
    [icon-192.png], then [icon-512.png], both as PNG, and prints its
    message only when both files have been written. *)
Theorem driver_writes_both_icons (env : font_env) (w : world) :
  exists img192 img512,
    create_receipt_icon env 192 = Ok img192 /\ create_receipt_icon env 512 = Ok img512
    /\ main env w =
       (os_makedirs icons_dir true;; Image_save img192 icon_192_path "PNG";;
        Image_save img512 icon_512_path "PNG";; print done_message) w
    /\ (fs w !! icons_dir = Some Directory -> fst (os_makedirs icons_dir true w) = Ok ())
    /\ (not_a_file (fs w !! "public") -> fs w !! icons_dir = None ->
        fst (os_makedirs icons_dir true w) = Ok ()
        /\ fs (snd (os_makedirs icons_dir true w)) !! icons_dir = Some Directory)
    /\ (forall w', main env w = (Ok (), w') ->
          fs w' !! icons_dir = Some Directory
          /\ fs w' !! icon_192_path = Some (File "PNG" img192)
          /\ fs w' !! icon_512_path = Some (File "PNG" img512)
          /\ stdout w' = stdout w ++ [done_message])
    /\ (forall e w', main env w = (Raise e, w') -> stdout w' = stdout w)
    /\ (not_a_file (fs w !! "public") -> not_a_file (fs w !! icons_dir) ->
        not_a_directory (fs w !! icon_192_path) -> not_a_directory (fs w !! icon_512_path) ->
        exists w', main env w = (Ok (), w'))
    /\ (not_a_file (fs w !! "public") -> not_a_file (fs w !! icons_dir) ->
        not_a_directory (fs w !! icon_192_path) -> fs w !! icon_512_path = Some Directory ->
        exists w', main env w = (Raise IsADirectoryError, w')
                   /\ fs w' !! icon_192_path = Some (File "PNG" img192)).
Proof.
  destruct (both_icons_render env) as (img192 & img512 & E1 & E2).
  exists img192, img512. split; [assumption|]. split; [assumption|].
  split; [apply main_steps; assumption|].
  pose proof (main_unfolded env img192 img512 w E1 E2) as M. clear E1 E2.
  destruct (os_makedirs icons_dir true w) as [r1 w1] eqn:Mk.
  destruct (makedirs_facts w w1 r1 Mk) as (O1 & K192 & K512 & D1 & P1 & Q1).
  cbn [fst snd].
  split; [assumption|].
  split.
  { intros Hp Hn. assert (R : r1 = Ok ()) by (apply Q1; [assumption | left; assumption]).
    split; [exact R | exact (D1 R)]. }
  destruct (Image_save img192 icon_192_path "PNG" w1) as [r2 w2] eqn:S1.
  destruct (save_facts img192 icon_192_path w1 w2 r2 (or_introl eq_refl) S1)
    as (O2 & W2 & N2 & G2 & B2).
  destruct (Image_save img512 icon_512_path "PNG" w2) as [r3 w3] eqn:S2.
  destruct (save_facts img512 icon_512_path w2 w3 r3 (or_intror eq_refl) S2)
    as (O3 & W3 & N3 & G3 & B3).
  split; [|split; [|split]].
  - intros w' H. rewrite M in H.
    destruct r1 as [[]|e1]; [|discriminate]. destruct r2 as [[]|e2]; [|discriminate].
    destruct r3 as [[]|e3]; [|discriminate]. injection H as <-. cbn [fs stdout].
    rewrite (W3 eq_refl), (W2 eq_refl). icon_lookups.
    rewrite (D1 eq_refl), O1. repeat split; reflexivity.
  - intros e w' H. rewrite M in H.
    destruct r1 as [[]|e1]; [|injection H as <- <-; congruence].
    destruct r2 as [[]|e2]; [|injection H as <- <-; congruence].
    destruct r3 as [[]|e3]; [discriminate | injection H as <- <-; congruence].
  - intros Hp Hi H192 H512.
    assert (R1 : r1 = Ok ()) by (apply Q1; assumption). subst r1.
    assert (R2 : r2 = Ok ()).
    { apply G2; [apply D1; reflexivity|]. unfold not_a_directory in *. rewrite K192. assumption. }
    subst r2. specialize (W2 eq_refl). subst w2.
    assert (R3 : r3 = Ok ()).
    { apply G3; revert H512; unfold not_a_directory; icon_lookups;
        [intros _; apply D1; reflexivity | rewrite K512; auto]. }
    subst r3. rewrite M. eexists. reflexivity.
  - intros Hp Hi H192 H512.
    assert (R1 : r1 = Ok ()) by (apply Q1; assumption). subst r1.
    assert (R2 : r2 = Ok ()).
    { apply G2; [apply D1; reflexivity|]. unfold not_a_directory in *. rewrite K192. assumption. }
    subst r2. specialize (W2 eq_refl). subst w2.
    assert (R3 : r3 = Raise IsADirectoryError).
    { apply B3. icon_lookups. rewrite K512. assumption. }
    subst r3. rewrite M. eexists. split; [reflexivity|].
    rewrite (N3 ltac:(discriminate)). icon_lookups. reflexivity.
Qed.

(** ** The font fallback, seen from the caller *)

(** An error of [Image.new] leaves the call as it is. *)
Lemma canvas_error_propagates (env : font_env) (n : Z) (e : exn) :
  Image_new "RGBA" n n background = Raise e -> create_receipt_icon env n = Raise e.
Proof.
  intros E. unfold create_receipt_icon. rewrite E. reflexivity.
Qed.




(** ** Pixels *)

Lemma draw_rectangle_outside r fill outline img img' x y :
  draw_rectangle r fill outline img = Ok img' -> in_rect r x y = false ->
  im_data img' x y = im_data img x y.
Proof.
  unfold draw_rectangle. destruct ((x1 r <? x0 r) || (y1 r <? y0 r)); [discriminate|].
  intros [= <-] H. cbn [im_data]. rewrite H. reflexivity.
Qed.

Lemma draw_all_outside fill rs x y : forall img img',
  Forall (fun r => in_rect r x y = false) rs ->
  draw_all (fun r => draw_rectangle r fill None) rs img = Ok img' ->
  im_data img' x y = im_data img x y.
Proof.
  induction rs as [|r rs IH]; intros img img' HF; cbn [draw_all].
  - intros [= <-]. reflexivity.
  - destruct (draw_rectangle r fill None img) as [img1|] eqn:E; [|discriminate].
    cbn [mbind result_bind]. intros H.
    rewrite (IH img1 img' (Forall_inv_tail HF) H).
    exact (draw_rectangle_outside _ _ _ _ _ _ _ E (Forall_inv HF)).
Qed.

(** A box between two columns misses every pixel outside them. *)
Lemma in_rect_columns (r : rect) (lo hi x y : Z) :
  lo <= x0 r -> x1 r <= hi -> x < lo \/ hi < x -> in_rect r x y = false.
Proof.
  intros H0 H1 Hx. unfold in_rect.
  destruct (Z.leb_spec (x0 r) x); destruct (Z.leb_spec x (x1 r)); cbn [andb]; try reflexivity; lia.
Qed.

Lemma blend_nothing (ink : color) : blend_color 0 background ink = background.
Proof.
  destruct ink as [[[ir ig] ib] ia]. unfold blend_color, background, blend.
  rewrite !Z.mul_0_r. reflexivity.
Qed.

Lemma in_corners (size x y : Z) :
  In (x, y) (corners size) -> (x = 0 \/ x = size - 1) /\ (y = 0 \/ y = size - 1).
Proof.
  unfold corners. cbn [In]. intros [H | [H | [H | [H | []]]]]; injection H as <- <-; auto.
Qed.

(** Light gray under the shadow and the letter never turns into the
    background colour, whatever the two coverages. *)
Lemma outline_shows (c1 c2 : Z) :
  blend_color c2 (blend_color c1 light_gray shadow) blue <> background.
Proof.
  unfold blend_color, light_gray, shadow, blue, background.
  intros E. injection E as Er Eg Eb _.
  unfold blend at 1 in Er. unfold blend at 1 in Eg. unfold blend at 1 in Eb.
  remember (blend c1 200 0) as v eqn:Ev. clear Ev.
  remember (v * (255 - c2)) as u eqn:Eu. clear Eu.
  unfold div255 in *. Z.div_mod_to_equations. lia.
Qed.

(** C2, as stated, fails: at size 8 the paper's box is [1, 0, 7, 7], so the
    corner (7, 7) lies on its outline, and no letter drawn over light gray
    gives the background colour. *)
Lemma small_icon_corner_is_outline :
  0 < 8
  /\ forall env, exists img,
       create_receipt_icon env 8 = Ok img /\ getpixel img 7 7 <> Some background.
Proof.
  split; [reflexivity|]. intros env.
  destruct (create_steps env 8 _ ltac:(lia) (Image_new_small 8 ltac:(split; discriminate)))
    as (img & E & R).
  exists img. split; [exact E|]. clear E.
  destruct R as [s p l i40 i2 w4 b f tx ty img0 img1 img2 img3
                   Hs H0 Hp H1 Hl E40 E2 Ew H2 Hb H3 Hf Ht].
  clear Hf Ht.
  vm_compute in Hs. injection Hs as <-.
  destruct p as [pm pw ph py]. destruct Hp as (Em & Ew' & Eh & Ey).
  cbn [paper_margin paper_width paper_height paper_y] in *.
  vm_compute in Em. injection Em as <-. vm_compute in Ew'. subst pw.
  vm_compute in Eh. injection Eh as <-. vm_compute in Ey. subst py.
  destruct l as [ls lm lst]. destruct Hl as (Es & Em & i20 & E20 & Est).
  cbn [line_spacing line_margin line_start] in *.
  vm_compute in Es. injection Es as <-. vm_compute in Em. injection Em as <-.
  vm_compute in E20. injection E20 as <-. vm_compute in Est. subst lst.
  vm_compute in E40. injection E40 as <-. vm_compute in E2. injection E2 as <-.
  vm_compute in Ew. injection Ew as <-.
  destruct Hb as (bw & bh & i35 & Eb & E20 & E35 & ->).
  cbn [paper_margin paper_width paper_height paper_y] in *.
  vm_compute in Eb. injection Eb as <-. vm_compute in E20. injection E20 as <-.
  vm_compute in E35. injection E35 as <-.
  assert (P3 : im_data img3 7 7 = light_gray).
  { rewrite (draw_rectangle_outside _ _ _ _ _ 7 7 H3) by (vm_compute; reflexivity).
    rewrite (draw_all_outside background _ 7 7 img1 img2) with (2 := H2)
      by (vm_compute; repeat constructor).
    unfold draw_rectangle in H1. vm_compute in H0. injection H0 as <-.
    vm_compute in H1. injection H1 as <-. reflexivity. }
  assert (W : im_width img3 = 8 /\ im_height img3 = 8).
  { apply draw_rectangle_shape in H1, H3. apply draw_all_shape in H2.
    vm_compute in H0. injection H0 as <-. unfold same_shape in *.
    cbn [im_width im_height] in *. intuition congruence. }
  destruct W as [W H].
  unfold getpixel, in_canvas. cbn [draw_text im_width im_height im_data]. rewrite W, H.
  cbn [Z.leb Z.ltb Z.compare Pos.compare Pos.compare_cont andb]. rewrite P3.
  intros C. apply (inj Some) in C. revert C. apply outline_shows.
Qed.

(** C2, amended: from size 16 on, the paper and everything drawn on it
    stay between the columns 2 and size - 2, so a completed call leaves the
    four corner pixels in the background colour, as long as the letter and
    its shadow put no ink there; and the call completes wherever
    [Image.new] has returned the canvas. *)
Theorem corners_keep_the_background (env : font_env) (size : Z) :
  16 <= size ->
  (forall x y, In (x, y) (corners size) -> glyph_clear env size x y) ->
  (forall img, create_receipt_icon env size = Ok img ->
     forall x y, In (x, y) (corners size) -> getpixel img x y = Some background)
  /\ (forall img0, Image_new "RGBA" size size background = Ok img0 ->
        exists img, create_receipt_icon env size = Ok img).
Proof.
  intros Hsize Hclear.
  assert (Hpos : 0 < size) by lia.
  destruct (create_cases env size Hpos) as [(img & E & R) | (e & E0 & E)].
  2:{ split; [intros img E'; congruence | intros img0 E0'; congruence]. }
  split; [|intros _ _; exists img; exact E].
  intros img' E' x y Hin. assert (img' = img) by congruence. subst img'. clear E E'.
  destruct (rendered_shape env size img R) as (_ & Wd & Ht).
  destruct (in_corners size x y Hin) as [Hx Hy].
  unfold getpixel, in_canvas. rewrite Wd, Ht.
  destruct (Z.leb_spec 0 x) as [_|]; [|lia]. destruct (Z.ltb_spec x size) as [_|]; [|lia].
  destruct (Z.leb_spec 0 y) as [_|]; [|lia]. destruct (Z.ltb_spec y size) as [_|]; [|lia].
  cbn [andb]. f_equal.
  destruct R as [s p l i40 i2 w4 b f tx ty img0 img1 img2 img3
                   Hs H0 Hp H1 Hl E40 E2 Ew H2 Hb H3 Hf Ht'].
  destruct (Hclear x y Hin s f tx ty Hs Hf Ht') as [C1 C2].
  cbn [draw_text im_data]. rewrite C1, C2.
  destruct (paper_facts size s Hpos Hs p Hp) as (_ & PW & _ & PM & _).
  specialize (PM Hsize).
  assert (X1 : x1 (paper_rect p) = size - paper_margin p).
  { destruct Hp as (_ & Ew' & _). unfold paper_rect. cbn [x1]. lia. }
  assert (Out : forall r, inside_columns (paper_rect p) r -> in_rect r x y = false).
  { intros r [A B]. apply (in_rect_columns r 2 (size - 2)).
    - unfold paper_rect in A. cbn [x0] in A. lia.
    - lia.
    - lia. }
  assert (P3 : im_data img3 x y = background).
  { rewrite (draw_rectangle_outside _ _ _ _ _ x y H3).
    2:{ apply Out. apply (button_facts size s Hpos Hs p b Hp Hb). }
    rewrite (draw_all_outside background _ x y img1 img2) with (2 := H2).
    2:{ eapply Forall_impl; [exact (line_boxes_facts size s Hpos Hs p l i40 i2 w4 Hp Hl E40 E2 Ew)|].
        intros r [_ (A & B & _)]. apply Out. split; assumption. }
    rewrite (draw_rectangle_outside _ _ _ _ _ x y H1).
    2:{ apply Out. split; lia. }
    destruct (Image_new_ok _ _ _ _ _ H0) as (_ & _ & ->). reflexivity. }
  rewrite P3, !blend_nothing. reflexivity.
Qed.

Lemma corners_keep_the_background_witness :
  exists img,
    create_receipt_icon no_truetype 192 = Ok img
    /\ getpixel img 0 0 = Some background /\ getpixel img 191 0 = Some background
    /\ getpixel img 0 191 = Some background /\ getpixel img 191 191 = Some background.
Proof.
  assert (Hsize : 16 <= 192) by lia.
  assert (Hclear : forall x y, In (x, y) (corners 192) -> glyph_clear no_truetype 192 x y).
  { intros x y Hin s f tx ty Hs Hf Ht.
    vm_compute in Hs. injection Hs as <-.
    vm_compute in Hf. injection Hf as <-.
    vm_compute in Ht. injection Ht as <- <-.
    unfold corners in Hin. cbn [In] in Hin.
    destruct Hin as [H | [H | [H | [H | []]]]]; injection H as <- <-; split; reflexivity. }
  destruct (corners_keep_the_background no_truetype 192 Hsize Hclear) as [A B].
  destruct (B _ (Image_new_small 192 ltac:(split; discriminate))) as [img E].
  exists img. split; [exact E|].
  repeat split; apply (A img E); unfold corners; cbn [In]; auto.
Defined.

(* ===================================================================== *)
(** * Further properties of [create_receipt_icon] *)
(* ===================================================================== *)

(** On an empty canvas everything has measure 0 and the call completes. *)
Lemma create_receipt_icon_zero (env : font_env) :
  exists img, create_receipt_icon env 0 = Ok img.
Proof.
  unfold create_receipt_icon.
  replace (Image_new "RGBA" 0 0 background)
    with (Ok {| im_mode := "RGBA"; im_width := 0; im_height := 0;
                im_data := fun _ _ => background |}) by (vm_compute; reflexivity).
  cbn [mbind result_bind].
  replace (py_truediv 0 192) with (Ok (Float64.quotient 0 192)) by (vm_compute; reflexivity).
  cbn [mbind result_bind].
  replace (paper_geometry 0 (Float64.quotient 0 192))
    with (Ok {| paper_margin := 0; paper_width := 0; paper_height := 0; paper_y := 0 |})
    by (vm_compute; reflexivity).
  cbn [mbind result_bind].
  destruct (draw_rectangle_ok
              (paper_rect {| paper_margin := 0; paper_width := 0; paper_height := 0; paper_y := 0 |})
              white (Some light_gray)
              {| im_mode := "RGBA"; im_width := 0; im_height := 0; im_data := fun _ _ => background |})
    as [img1 E1]; [split; vm_compute; discriminate|].
  rewrite E1. cbn [mbind result_bind].
  replace (line_geometry {| paper_margin := 0; paper_width := 0; paper_height := 0; paper_y := 0 |}
             (Float64.quotient 0 192))
    with (Ok {| line_spacing := 0; line_margin := 0; line_start := 0 |})
    by (vm_compute; reflexivity).
  cbn [mbind result_bind].
  rewrite (receipt_lines_prefix _ (Float64.quotient 0 192) _ _ 0 0 0 range6)
    by (vm_compute; reflexivity).
  destruct (draw_all_ok background
              (map (fun i => line_rect {| paper_margin := 0; paper_width := 0; paper_height := 0; paper_y := 0 |}
                                {| line_spacing := 0; line_margin := 0; line_start := 0 |} 0
                                (line_width_at {| paper_margin := 0; paper_width := 0; paper_height := 0; paper_y := 0 |}
                                   {| line_spacing := 0; line_margin := 0; line_start := 0 |} 0 i) i)
                   (prefix_while (in_reach {| paper_margin := 0; paper_width := 0; paper_height := 0; paper_y := 0 |}
                                    {| line_spacing := 0; line_margin := 0; line_start := 0 |} 0) range6)))
    with (img := img1) as [img2 E2].
  { vm_compute. repeat constructor; discriminate. }
  rewrite E2. cbn [mbind result_bind].
  replace (button_rect {| paper_margin := 0; paper_width := 0; paper_height := 0; paper_y := 0 |}
             (Float64.quotient 0 192))
    with (Ok {| x0 := 0; y0 := 0; x1 := 0; y1 := 0 |}) by (vm_compute; reflexivity).
  cbn [mbind result_bind].
  destruct (draw_rectangle_ok {| x0 := 0; y0 := 0; x1 := 0; y1 := 0 |} blue None img2)
    as [img3 E3]; [split; vm_compute; discriminate|].
  rewrite E3. cbn [mbind result_bind].
  destruct (select_font_ok env (Float64.quotient 0 192)) as [f Ef]. rewrite Ef.
  cbn [mbind result_bind].
  unfold text_origin. destruct (textbbox f "R") as [[[bx0 by0] bx1] by1].
  replace (scaled 10 (Float64.quotient 0 192)) with (Ok 0) by (vm_compute; reflexivity).
  cbn [mbind result_bind]. eauto.
Qed.

(** X1: what a call can raise.  Every error a call ends with is the
    error of [Image.new]: [ValueError] for a negative size,
    [OverflowError] for a size that does not fit a C [int]; and wherever
    [Image.new] has returned the canvas, the empty one of size 0 included,
    the call returns: no box is ever refused by [draw.rectangle] and no
    arithmetic error occurs. *)
Theorem create_receipt_icon_errors (env : font_env) (size : Z) :
  (size < 0 -> create_receipt_icon env size = Raise ValueError)
  /\ (int_limit <= size -> create_receipt_icon env size = Raise OverflowError)
  /\ (forall e, create_receipt_icon env size = Raise e ->
        Image_new "RGBA" size size background = Raise e)
  /\ (forall img0, Image_new "RGBA" size size background = Ok img0 ->
        exists img, create_receipt_icon env size = Ok img).
Proof.
  assert (Done : forall img0, Image_new "RGBA" size size background = Ok img0 ->
                  exists img, create_receipt_icon env size = Ok img).
  { intros img0 E0. destruct (Image_new_ok _ _ _ _ _ E0) as ([H0 _] & _).
    destruct (Z.eq_dec size 0) as [-> | Hnz]; [apply create_receipt_icon_zero|].
    destruct (create_steps env size img0 ltac:(lia) E0) as (img & E & _).
    exists img. exact E. }
  split; [|split; [|split; [|exact Done]]].
  - intros Hneg. apply canvas_error_propagates. unfold Image_new.
    destruct (Z.ltb_spec size 0); [reflexivity | lia].
  - intros Hbig. apply canvas_error_propagates. unfold Image_new.
    assert (L : 0 < int_limit) by reflexivity.
    destruct (Z.ltb_spec size 0); [lia|]. cbn [orb].
    destruct (Z.leb_spec int_limit size); [reflexivity | lia].
  - intros e E.
    destruct (Image_new "RGBA" size size background) as [img0|e0] eqn:E0.
    + destruct (Done img0 eq_refl) as [img E']. congruence.
    + rewrite (canvas_error_propagates env size e0 E0) in E. congruence.
Qed.

Lemma create_receipt_icon_errors_witness :
  create_receipt_icon no_truetype (-1) = Raise ValueError
  /\ create_receipt_icon no_truetype (2 ^ 31) = Raise OverflowError
  /\ Image_new "RGBA" (2 ^ 31 - 1) (2 ^ 31 - 1) background = Raise MemoryError
  /\ exists img, create_receipt_icon no_truetype 0 = Ok img.
Proof.
  split; [exact (proj1 (create_receipt_icon_errors no_truetype (-1)) ltac:(reflexivity))|].
  split; [exact (proj1 (proj2 (create_receipt_icon_errors no_truetype (2 ^ 31)))
                   ltac:(discriminate))|].
  split.
  - exact (proj1 (proj2 (proj2 (create_receipt_icon_errors no_truetype (2 ^ 31 - 1))))
             MemoryError eq_refl).
  - exact (proj2 (proj2 (proj2 (create_receipt_icon_errors no_truetype 0))) _ eq_refl).
Defined.

(** X2: from size 16 on, the whole box of the paper, outline included, lies
    on the canvas: it keeps two columns free on either side, starts at or
    below the top row and ends at or above the bottom row, so no part of
    the paper is clipped. *)
Theorem paper_lies_on_the_canvas (size : Z) (s : spec_float) (p : paper) :
  16 <= size -> py_truediv size 192 = Ok s -> paper_geometry size s = Ok p ->
  2 <= x0 (paper_rect p) /\ x1 (paper_rect p) <= size - 2
  /\ 0 <= y0 (paper_rect p) /\ y1 (paper_rect p) <= size - 1.
Proof.
  intros H16 Hs Hp.
  assert (Hsize : 0 < size) by lia.
  pose proof (paper_geometry_ok size s p Hsize Hs Hp) as Ok_p.
  destruct (paper_facts size s Hsize Hs p Ok_p) as (_ & PW & PH & PM & Am & Ah).
  specialize (PM H16).
  destruct Ok_p as (_ & Ew & _ & Ey).
  assert (Hh : paper_height p < size).
  { destruct (Z_lt_le_dec size 25) as [Small | Big].
    - assert (C : size = 16 \/ size = 17 \/ size = 18 \/ size = 19 \/ size = 20
                  \/ size = 21 \/ size = 22 \/ size = 23 \/ size = 24) by lia.
      clear - C Hs Hp.
      repeat (destruct C as [-> | C]; [vm_compute in Hs; injection Hs as <-;
                                       vm_compute in Hp; injection Hp as <-; reflexivity|]).
      subst size. vm_compute in Hs. injection Hs as <-.
      vm_compute in Hp. injection Hp as <-. reflexivity.
    - destruct Am as [_ [Ml _]], Ah as [_ [_ Hu]].
      assert (S25 : (25 <= inject_Z size)%Q)
        by (change 25%Q with (inject_Z 25); rewrite <- Zle_Qle; lia).
      rewrite Ew in Hu.
      assert (Ew' : (inject_Z (size - 2 * paper_margin p)
                     == inject_Z size - 2 * inject_Z (paper_margin p))%Q).
      { unfold Z.sub. rewrite inject_Z_plus, inject_Z_opp, inject_Z_mult. reflexivity. }
      rewrite Ew' in Hu. rewrite Zlt_Qlt. unfold C12, u53 in *. lra. }
  unfold paper_rect. cbn [x0 x1 y0 y1]. rewrite Ey.
  assert (D : 0 <= (size - paper_height p) / 2 <= size - paper_height p - 1).
  { split; [apply Z.div_pos; lia|].
    apply Z.lt_succ_r. apply Z.div_lt_upper_bound; lia. }
  lia.
Qed.

Lemma paper_lies_on_the_canvas_witness :
  exists s p,
    py_truediv 512 192 = Ok s /\ paper_geometry 512 s = Ok p
    /\ paper_rect p = {| x0 := 64; y0 := 26; x1 := 448; y1 := 486 |}
    /\ 2 <= x0 (paper_rect p) /\ x1 (paper_rect p) <= 512 - 2
    /\ 0 <= y0 (paper_rect p) /\ y1 (paper_rect p) <= 512 - 1.
Proof.
  assert (Hs : py_truediv 512 192 = Ok (Float64.quotient 512 192)) by (vm_compute; reflexivity).
  assert (Hp : paper_geometry 512 (Float64.quotient 512 192)
               = Ok {| paper_margin := 64; paper_width := 384; paper_height := 460; paper_y := 26 |})
    by (vm_compute; reflexivity).
  eexists. eexists. split; [exact Hs|]. split; [exact Hp|]. split; [reflexivity|].
  exact (paper_lies_on_the_canvas 512 _ _ ltac:(lia) Hs Hp).
Defined.

(** X3: on every positive size each receipt line ends strictly above the
    scan button, and the button starts on the paper, at or below its top
    edge: the two never share a row. *)
Theorem lines_end_above_the_button (size : Z) (s : spec_float) (p : paper) (l : lines)
    (rects : list rect) (b : rect) :
  0 < size -> py_truediv size 192 = Ok s -> paper_geometry size s = Ok p ->
  line_geometry p s = Ok l -> drawn_lines s p l = Ok rects -> button_rect p s = Ok b ->
  Forall (fun r => y1 r < y0 b) rects
  /\ y0 (paper_rect p) <= y0 b /\ y0 b <= y1 b.
Proof.
  intros Hsize Hs Hp Hl Hd Hb.
  pose proof (paper_geometry_ok size s p Hsize Hs Hp) as Ok_p.
  pose proof (line_geometry_ok size s p l Hsize Hs Hl) as Ok_l.
  pose proof (button_rect_ok size s p b Hsize Hs Ok_p Hb) as Ok_b.
  destruct (drawn_lines_ok size s p l rects Hsize Hs Ok_p Ok_l Hd)
    as (i40 & i2 & w4 & E40 & E2 & Ew & ->).
  destruct (button_facts size s Hsize Hs p b Ok_p Ok_b) as ([_ Wb] & _).
  destruct Ok_l as (E16 & E12 & i20 & E20 & Est).
  destruct Ok_b as (bw & bh & i35 & Eb & E20' & E35 & Eqb).
  assert (G : i20 + 5 * line_spacing l + i2 + i35 < paper_height p).
  { destruct (Z_lt_le_dec size 6) as [Small | Big].
    - assert (C : size = 1 \/ size = 2 \/ size = 3 \/ size = 4 \/ size = 5) by lia.
      clear - C Hs Hp E16 E20 E2 E35.
      destruct p as [pm pw ph py], l as [ls lm lst].
      cbn [paper_height line_spacing] in *.
      assert (K : forall n, size = n -> py_truediv n 192 = Ok s) by (intros n <-; exact Hs).
      destruct C as [C | [C | [C | [C | C]]]]; specialize (K _ C); subst size;
        vm_compute in K; injection K as <-;
        vm_compute in Hp; injection Hp as <- <- <- <-;
        vm_compute in E16; injection E16 as <-;
        vm_compute in E20; injection E20 as <-;
        vm_compute in E2; injection E2 as <-;
        vm_compute in E35; injection E35 as <-; reflexivity.
    - destruct (paper_facts size s Hsize Hs p Ok_p) as (_ & _ & _ & _ & Am & Ah).
      pose proof (scaled_about size s Hsize Hs 16 _ (in_ks 16 eq_refl) E16) as A16.
      pose proof (scaled_about size s Hsize Hs 20 _ (in_ks 20 eq_refl) E20) as A20.
      pose proof (scaled_about size s Hsize Hs 2 _ (in_ks 2 eq_refl) E2) as A2.
      pose proof (scaled_about size s Hsize Hs 35 _ (in_ks 35 eq_refl) E35) as A35.
      destruct A16 as [_ [_ U16]], A20 as [_ [_ U20]], A2 as [_ [_ U2]], A35 as [_ [_ U35]],
               Am as [_ [_ Um]], Ah as [_ [Lh _]].
      destruct Ok_p as (_ & Ew' & _).
      assert (S6 : (6 <= inject_Z size)%Q)
        by (change 6%Q with (inject_Z 6); rewrite <- Zle_Qle; lia).
      rewrite Ew' in Lh.
      assert (Ew'' : (inject_Z (size - 2 * paper_margin p)
                      == inject_Z size - 2 * inject_Z (paper_margin p))%Q).
      { unfold Z.sub. rewrite inject_Z_plus, inject_Z_opp, inject_Z_mult. reflexivity. }
      rewrite Ew'' in Lh. to_Q_goal. numerals. unfold C12, u53 in *. lra. }
  pose proof (scaled_nonneg size s Hsize Hs 16 _ (in_ks 16 eq_refl) E16) as N16.
  pose proof (scaled_nonneg size s Hsize Hs 20 _ (in_ks 20 eq_refl) E20) as N20.
  pose proof (scaled_nonneg size s Hsize Hs 2 _ (in_ks 2 eq_refl) E2) as N2.
  subst b. cbn [x0 x1 y0 y1] in *. unfold paper_rect. cbn [y0].
  split; [|lia].
  unfold line_boxes, range6, line_rect. cbn [map].
  repeat (constructor; [cbn [y1]; lia|]). constructor.
Qed.

Lemma lines_end_above_the_button_witness :
  exists s p l rects b,
    py_truediv 192 192 = Ok s /\ paper_geometry 192 s = Ok p
    /\ line_geometry p s = Ok l /\ drawn_lines s p l = Ok rects
    /\ button_rect p s = Ok b
    /\ map y1 rects = [32; 48; 64; 80; 96; 112] /\ y0 b = 147
    /\ Forall (fun r => y1 r < y0 b) rects.
Proof.
  assert (Hs : py_truediv 192 192 = Ok (Float64.quotient 192 192)) by (vm_compute; reflexivity).
  assert (Hp : paper_geometry 192 (Float64.quotient 192 192)
               = Ok {| paper_margin := 24; paper_width := 144; paper_height := 172; paper_y := 10 |})
    by (vm_compute; reflexivity).
  assert (Hl : line_geometry {| paper_margin := 24; paper_width := 144; paper_height := 172; paper_y := 10 |}
                 (Float64.quotient 192 192)
               = Ok {| line_spacing := 16; line_margin := 12; line_start := 30 |})
    by (vm_compute; reflexivity).
  assert (Hb : button_rect {| paper_margin := 24; paper_width := 144; paper_height := 172; paper_y := 10 |}
                 (Float64.quotient 192 192)
               = Ok {| x0 := 46; y0 := 147; x1 := 146; y1 := 167 |})
    by (vm_compute; reflexivity).
  eexists. eexists. eexists. eexists. eexists.
  split; [exact Hs|]. split; [exact Hp|]. split; [exact Hl|]. split; [reflexivity|].
  split; [exact Hb|]. split; [reflexivity|]. split; [reflexivity|].
  exact (proj1 (lines_end_above_the_button 192 _ _ _ _ _ ltac:(lia) Hs Hp Hl eq_refl Hb)).
Defined.

Lemma draw_rectangle_pixel r fill outline img img' x y :
  draw_rectangle r fill outline img = Ok img' ->
  im_data img' x y =
  if in_rect r x y then
    match outline with
    | Some o => if on_edge r x y then o else fill
    | None => fill
    end
  else im_data img x y.
Proof.
  unfold draw_rectangle. destruct ((x1 r <? x0 r) || (y1 r <? y0 r)); [discriminate|].
  intros [= <-]. reflexivity.
Qed.

Lemma draw_all_pixel fill rs x y : forall img img',
  draw_all (fun r => draw_rectangle r fill None) rs img = Ok img' ->
  im_data img' x y =
  if existsb (fun r => in_rect r x y) rs then fill else im_data img x y.
Proof.
  induction rs as [|r rs IH]; intros img img'; cbn [draw_all existsb].
  - intros [= <-]. reflexivity.
  - destruct (draw_rectangle r fill None img) as [img1|] eqn:E; [|discriminate].
    cbn [mbind result_bind]. intros H. rewrite (IH img1 img' H).
    rewrite (draw_rectangle_pixel _ _ _ _ _ x y E).
    destruct (in_rect r x y), (existsb (fun r0 => in_rect r0 x y) rs); reflexivity.
Qed.

(** Where the mask is empty, a colour of the picture is left as it is. *)
Lemma blend_keeps_layers p rects b x y ink :
  blend_color 0 (layers p rects b x y) ink = layers p rects b x y.
Proof.
  destruct ink as [[[ir ig] ib] ia]. unfold layers.
  destruct (in_rect b x y); [|destruct (existsb _ rects);
    [|destruct (in_rect (paper_rect p) x y); [destruct (on_edge (paper_rect p) x y)|]]];
    unfold blend_color, background, blue, white, light_gray, blend;
    rewrite !Z.mul_0_r; reflexivity.
Qed.

(** X4: the picture, pixel by pixel.  In the buffer a call returns, a pixel
    on which the letter and its shadow put no ink is blue in the box of the
    button; otherwise it has the background colour in the box of a line;
    otherwise, in the box of the paper, it is light gray on the outline
    and white inside; everywhere else it has the background colour.  Later
    shapes cover earlier ones, in the order the script draws them. *)
Theorem picture_layers (env : font_env) (size : Z) (s : spec_float) (p : paper)
    (l : lines) (rects : list rect) (b : rect) (f : font) (tx ty : Z) (img : image)
    (x y : Z) :
  0 < size -> py_truediv size 192 = Ok s -> paper_geometry size s = Ok p ->
  line_geometry p s = Ok l -> drawn_lines s p l = Ok rects -> button_rect p s = Ok b ->
  select_font env s = Ok f -> text_origin size s f = Ok (tx, ty) ->
  create_receipt_icon env size = Ok img ->
  coverage f "R" (x - (tx + 2)) (y - (ty + 2)) = 0 ->
  coverage f "R" (x - tx) (y - ty) = 0 ->
  0 <= x < size -> 0 <= y < size ->
  getpixel img x y = Some (layers p rects b x y).
Proof.
  intros Hsize Hs Hp Hl Hd Hb Hf Ht E C1 C2 Hx Hy.
  pose proof (paper_geometry_ok size s p Hsize Hs Hp) as Ok_p.
  pose proof (line_geometry_ok size s p l Hsize Hs Hl) as Ok_l.
  destruct (drawn_lines_ok size s p l rects Hsize Hs Ok_p Ok_l Hd)
    as (i40 & i2 & w4 & E40 & E2 & Ew & ->).
  destruct (lines_facts size s Hsize Hs p l i40 Ok_p Ok_l E40) as (L0 & _ & _ & _ & _ & Y5).
  pose proof (range6_in_reach p l i40 L0 Y5) as R.
  unfold create_receipt_icon in E.
  destruct (Image_new "RGBA" size size background) as [img0|] eqn:E0; [|discriminate].
  destruct (Image_new_ok _ _ _ _ _ E0) as (_ & _ & ->). cbn [mbind result_bind] in E.
  rewrite Hs in E. cbn [mbind result_bind] in E.
  rewrite Hp in E. cbn [mbind result_bind] in E.
  destruct (draw_rectangle (paper_rect p) white (Some light_gray) _) as [img1|] eqn:D1;
    [|discriminate].
  cbn [mbind result_bind] in E. rewrite Hl in E. cbn [mbind result_bind] in E.
  rewrite (receipt_lines_all s (fun r => draw_rectangle r background None)
             p l i40 i2 w4 range6 E40 E2 Ew R) in E.
  fold (line_boxes p l i2 w4) in E.
  destruct (draw_all _ (line_boxes p l i2 w4) img1) as [img2|] eqn:D2; [|discriminate].
  cbn [mbind result_bind] in E. rewrite Hb in E. cbn [mbind result_bind] in E.
  destruct (draw_rectangle b blue None img2) as [img3|] eqn:D3; [|discriminate].
  cbn [mbind result_bind] in E. rewrite Hf in E. cbn [mbind result_bind] in E.
  rewrite Ht in E. cbn [mbind result_bind] in E. injection E as <-.
  assert (Sh : im_width img3 = size /\ im_height img3 = size).
  { pose proof (draw_rectangle_shape _ _ _ _ _ D1) as S1.
    pose proof (draw_all_shape _ _ _ _ D2) as S2.
    pose proof (draw_rectangle_shape _ _ _ _ _ D3) as S3.
    unfold same_shape in *. cbn [im_width im_height] in *. intuition congruence. }
  destruct Sh as [Wd Ht'].
  unfold getpixel, in_canvas. cbn [draw_text im_width im_height im_data]. rewrite Wd, Ht'.
  destruct (Z.leb_spec 0 x) as [_|]; [|lia]. destruct (Z.ltb_spec x size) as [_|]; [|lia].
  destruct (Z.leb_spec 0 y) as [_|]; [|lia]. destruct (Z.ltb_spec y size) as [_|]; [|lia].
  cbn [andb]. f_equal. rewrite C1, C2.
  assert (P3 : im_data img3 x y = layers p (line_boxes p l i2 w4) b x y).
  { rewrite (draw_rectangle_pixel _ _ _ _ _ x y D3).
    rewrite (draw_all_pixel _ _ x y _ _ D2).
    rewrite (draw_rectangle_pixel _ _ _ _ _ x y D1). reflexivity. }
  rewrite P3, !blend_keeps_layers. reflexivity.
Qed.

Lemma picture_layers_witness :
  exists img,
    create_receipt_icon no_truetype 192 = Ok img
    /\ getpixel img 50 150 = Some blue /\ getpixel img 40 31 = Some background
    /\ getpixel img 24 100 = Some light_gray /\ getpixel img 30 20 = Some white
    /\ getpixel img 5 5 = Some background.
Proof.
  assert (Hs : py_truediv 192 192 = Ok (Float64.quotient 192 192)) by (vm_compute; reflexivity).
  assert (Hp : paper_geometry 192 (Float64.quotient 192 192)
               = Ok {| paper_margin := 24; paper_width := 144; paper_height := 172; paper_y := 10 |})
    by (vm_compute; reflexivity).
  assert (Hl : line_geometry {| paper_margin := 24; paper_width := 144; paper_height := 172; paper_y := 10 |}
                 (Float64.quotient 192 192)
               = Ok {| line_spacing := 16; line_margin := 12; line_start := 30 |})
    by (vm_compute; reflexivity).
  assert (Hb : button_rect {| paper_margin := 24; paper_width := 144; paper_height := 172; paper_y := 10 |}
                 (Float64.quotient 192 192)
               = Ok {| x0 := 46; y0 := 147; x1 := 146; y1 := 167 |})
    by (vm_compute; reflexivity).
  assert (Hf : select_font no_truetype (Float64.quotient 192 192) = Ok box_font)
    by (vm_compute; reflexivity).
  assert (Ht : text_origin 192 (Float64.quotient 192 192) box_font = Ok (93, 82))
    by (vm_compute; reflexivity).
  destruct (both_icons_render no_truetype) as (img & _ & E & _).
  exists img. split; [exact E|].
  pose proof (fun x y => picture_layers no_truetype 192 _ _ _ _ _ _ 93 82 img x y
                            ltac:(lia) Hs Hp Hl eq_refl Hb Hf Ht E) as P.
  repeat split; apply P; reflexivity || lia.
Defined.



(** X6: from size 12 on the six lines follow one another down the paper
    and no two of them share a row, since their thickness [int(2 * scale)]
    is less than their spacing [int(16 * scale)]; below size 12 the spacing
    and the thickness are both 0 and the six lines fall on one and the
    same row, the row [line_start]. *)
Theorem lines_are_stacked (size : Z) (s : spec_float) (p : paper) (l : lines)
    (rects : list rect) :
  0 < size -> py_truediv size 192 = Ok s -> paper_geometry size s = Ok p ->
  line_geometry p s = Ok l -> drawn_lines s p l = Ok rects ->
  (12 <= size -> stacked rects)
  /\ (size < 12 -> Forall (fun r => y0 r = line_start l /\ y1 r = line_start l) rects).
Proof.
  intros Hsize Hs Hp Hl Hd.
  pose proof (paper_geometry_ok size s p Hsize Hs Hp) as Ok_p.
  pose proof (line_geometry_ok size s p l Hsize Hs Hl) as Ok_l.
  destruct (drawn_lines_ok size s p l rects Hsize Hs Ok_p Ok_l Hd)
    as (i40 & i2 & w4 & E40 & E2 & Ew & ->).
  destruct Ok_l as (E16 & _).
  pose proof (scaled_about size s Hsize Hs 16 _ (in_ks 16 eq_refl) E16) as A16.
  pose proof (scaled_about size s Hsize Hs 2 _ (in_ks 2 eq_refl) E2) as A2.
  destruct A16 as [N16 [L16 U16]], A2 as [N2 [_ U2]].
  pose proof (size_ge1 size Hsize) as S1.
  split.
  - intros H12.
    assert (G : i2 < line_spacing l).
    { destruct (Z_lt_le_dec size 14) as [Small | Big].
      - assert (C : size = 12 \/ size = 13) by lia.
        clear - C Hs E16 E2. destruct l as [ls lm lst]. cbn [line_spacing] in *.
        assert (K : forall n, size = n -> py_truediv n 192 = Ok s) by (intros n <-; exact Hs).
        destruct C as [C | C]; specialize (K _ C); subst size;
          vm_compute in K; injection K as <-;
          vm_compute in E16; injection E16 as <-;
          vm_compute in E2; injection E2 as <-; reflexivity.
      - assert (S14 : (14 <= inject_Z size)%Q)
          by (change 14%Q with (inject_Z 14); rewrite <- Zle_Qle; lia).
        rewrite Zlt_Qlt. numerals. unfold u53 in *. lra. }
    unfold line_boxes, range6, line_rect. cbn [map stacked y0 y1]. lia.
  - intros H12.
    assert (S11 : (inject_Z size <= 11)%Q)
      by (change 11%Q with (inject_Z 11); rewrite <- Zle_Qle; lia).
    assert (G16 : line_spacing l < 1) by (rewrite Zlt_Qlt; numerals; unfold u53 in *; lra).
    assert (G2 : i2 < 1) by (rewrite Zlt_Qlt; numerals; unfold u53 in *; lra).
    unfold line_boxes, range6, line_rect. cbn [map].
    repeat (constructor; [cbn [y0 y1]; lia|]). constructor.
Qed.

Lemma lines_are_stacked_witness :
  exists s p l rects,
    py_truediv 192 192 = Ok s /\ paper_geometry 192 s = Ok p
    /\ line_geometry p s = Ok l /\ drawn_lines s p l = Ok rects
    /\ map (fun r => (y0 r, y1 r)) rects
       = [(30, 32); (46, 48); (62, 64); (78, 80); (94, 96); (110, 112)]
    /\ stacked rects.
Proof.
  assert (Hs : py_truediv 192 192 = Ok (Float64.quotient 192 192)) by (vm_compute; reflexivity).
  assert (Hp : paper_geometry 192 (Float64.quotient 192 192)
               = Ok {| paper_margin := 24; paper_width := 144; paper_height := 172; paper_y := 10 |})
    by (vm_compute; reflexivity).
  assert (Hl : line_geometry {| paper_margin := 24; paper_width := 144; paper_height := 172; paper_y := 10 |}
                 (Float64.quotient 192 192)
               = Ok {| line_spacing := 16; line_margin := 12; line_start := 30 |})
    by (vm_compute; reflexivity).
  eexists. eexists. eexists. eexists.
  split; [exact Hs|]. split; [exact Hp|]. split; [exact Hl|]. split; [reflexivity|].
  split; [reflexivity|].
  exact (proj1 (lines_are_stacked 192 _ _ _ _ ltac:(lia) Hs Hp Hl eq_refl) ltac:(lia)).
Defined.

(* ===================================================================== *)
(** * Further properties of the driver *)
(* ===================================================================== *)

Lemma makedirs_frame (w w1 : world) (r : result ()) :
  os_makedirs icons_dir true w = (r, w1) ->
  (forall path, path <> "public"%string -> path <> icons_dir -> fs w1 !! path = fs w !! path)
  /\ (forall path n, fs w !! path = Some n -> fs w1 !! path = Some n)
  /\ (r = Ok () -> is_Some (fs w1 !! "public")).
Proof.
  rewrite os_makedirs_icons.
  destruct (fs w !! "public") as [[|fa ca]|] eqn:A;
    destruct (fs w !! icons_dir) as [[|fb cb]|] eqn:B;
    intros H; injection H as <- <-; unfold with_node; cbn [fs stdout];
    (split; [|split]);
    try (intros path Hp Hi; rewrite ?lookup_insert_ne by congruence; reflexivity);
    try (intros path n Hn;
         repeat (rewrite lookup_insert_ne by (intros <-; congruence)); exact Hn);
    try (intros _; rewrite ?lookup_insert_eq, ?A;
         repeat (rewrite lookup_insert_ne by (unfold icons_dir; discriminate));
         rewrite ?lookup_insert_eq, ?A; eauto);
    try discriminate.
Qed.

Lemma save_frame (img : image) (path : string) (w w1 : world) (r : result ()) :
  path = icon_192_path \/ path = icon_512_path ->
  Image_save img path "PNG" w = (r, w1) ->
  forall other, other <> path -> fs w1 !! other = fs w !! other.
Proof.
  intros Hp H other Ho.
  destruct (save_facts img path w w1 r Hp H) as (_ & W & N & _).
  destruct r as [[]|e].
  - rewrite (W eq_refl). unfold with_node. cbn [fs]. apply lookup_insert_ne. congruence.
  - rewrite (N ltac:(discriminate)). reflexivity.
Qed.

Ltac trace_case :=
  cbn [is_ok fs stdout]; split; [reflexivity|];
  split;
  [ intros Hr; try discriminate Hr; repeat split; reflexivity
  | intros Ha Hb Hc; try discriminate Ha; try discriminate Hb; try discriminate Hc;
    reflexivity ].

(** The worlds a run of the driver goes through. *)
Lemma main_trace (env : font_env) (w : world) (r : result ()) (w' : world) :
  main env w = (r, w') ->
  exists img192 img512 r1 w1 r2 w2 r3 w3,
    create_receipt_icon env 192 = Ok img192 /\ create_receipt_icon env 512 = Ok img512
    /\ os_makedirs icons_dir true w = (r1, w1)
    /\ Image_save img192 icon_192_path "PNG" w1 = (r2, w2)
    /\ Image_save img512 icon_512_path "PNG" w2 = (r3, w3)
    /\ fs w' = (if is_ok r1 then if is_ok r2 then fs w3 else fs w2 else fs w1)
    /\ (r = Ok () -> r1 = Ok () /\ r2 = Ok () /\ r3 = Ok ()
                     /\ stdout w' = stdout w3 ++ [done_message])
    /\ (r1 = Ok () -> r2 = Ok () -> r3 = Ok () -> r = Ok ()).
Proof.
  intros H.
  destruct (both_icons_render env) as (i1 & i2 & E1 & E2).
  pose proof (main_unfolded env i1 i2 w E1 E2) as M. rewrite H in M.
  exists i1, i2.
  destruct (os_makedirs icons_dir true w) as [r1 w1] eqn:Mk.
  destruct (Image_save i1 icon_192_path "PNG" w1) as [r2 w2] eqn:S1.
  destruct (Image_save i2 icon_512_path "PNG" w2) as [r3 w3] eqn:S2.
  exists r1, w1, r2, w2, r3, w3.
  split; [exact E1|]. split; [exact E2|]. clear E1 E2 H.
  split; [reflexivity|]. split; [exact S1|]. split; [exact S2|]. clear Mk S1 S2.
  destruct r1 as [[]|e1]; [|injection M as -> ->; trace_case].
  destruct r2 as [[]|e2]; [|injection M as -> ->; trace_case].
  destruct r3 as [[]|e3]; injection M as -> ->; trace_case.
Qed.

(** Where nothing is in the way, the driver succeeds. *)
Lemma main_succeeds (env : font_env) (w : world) :
  not_a_file (fs w !! "public") -> not_a_file (fs w !! icons_dir) ->
  not_a_directory (fs w !! icon_192_path) -> not_a_directory (fs w !! icon_512_path) ->
  exists w', main env w = (Ok (), w').
Proof.
  intros Hp Hi H192 H512.
  destruct (both_icons_render env) as (i1 & i2 & E1 & E2).
  pose proof (main_unfolded env i1 i2 w E1 E2) as M. clear E1 E2.
  destruct (os_makedirs icons_dir true w) as [r1 w1] eqn:Mk.
  destruct (makedirs_facts w w1 r1 Mk) as (_ & K192 & K512 & D1 & _ & Q1).
  destruct (Image_save i1 icon_192_path "PNG" w1) as [r2 w2] eqn:S1.
  destruct (save_facts i1 icon_192_path w1 w2 r2 (or_introl eq_refl) S1) as (_ & W2 & _ & G2 & _).
  destruct (Image_save i2 icon_512_path "PNG" w2) as [r3 w3] eqn:S2.
  destruct (save_facts i2 icon_512_path w2 w3 r3 (or_intror eq_refl) S2) as (_ & _ & _ & G3 & _).
  assert (R1 : r1 = Ok ()) by (apply Q1; assumption). subst r1.
  assert (R2 : r2 = Ok ()).
  { apply G2; [apply D1; reflexivity|]. unfold not_a_directory in *. rewrite K192. assumption. }
  subst r2. specialize (W2 eq_refl). subst w2.
  assert (R3 : r3 = Ok ()).
  { apply G3; revert H512; unfold not_a_directory; icon_lookups;
      [intros _; apply D1; reflexivity | rewrite K512; auto]. }
  subst r3. rewrite M. eexists. reflexivity.
Qed.

(** X7: whatever the outcome, a run of the driver leaves every path other
    than [public], [public/icons] and the two icon files as it found it,
    and it keeps every existing entry other than the two icon files:
    directories are only ever added. *)
Theorem driver_touches_only_its_paths (env : font_env) (w w' : world) (r : result ()) :
  main env w = (r, w') ->
  (forall path, path <> "public"%string -> path <> icons_dir ->
     path <> icon_192_path -> path <> icon_512_path -> fs w' !! path = fs w !! path)
  /\ (forall path n, path <> icon_192_path -> path <> icon_512_path ->
        fs w !! path = Some n -> fs w' !! path = Some n).
Proof.
  intros H.
  destruct (main_trace env w r w' H)
    as (i1 & i2 & r1 & w1 & r2 & w2 & r3 & w3 & _ & _ & Mk & S1 & S2 & F & _).
  destruct (makedirs_frame w w1 r1 Mk) as (F1 & K1 & _).
  pose proof (save_frame i1 icon_192_path w1 w2 r2 (or_introl eq_refl) S1) as F2.
  pose proof (save_frame i2 icon_512_path w2 w3 r3 (or_intror eq_refl) S2) as F3.
  split.
  - intros path Hp Hi H192 H512. rewrite F.
    destruct (is_ok r1); [destruct (is_ok r2)|].
    + rewrite F3, F2, F1 by assumption. reflexivity.
    + rewrite F2, F1 by assumption. reflexivity.
    + apply F1; assumption.
  - intros path n H192 H512 Hn. rewrite F.
    destruct (is_ok r1); [destruct (is_ok r2)|].
    + rewrite F3, F2 by assumption. apply K1. exact Hn.
    + rewrite F2 by assumption. apply K1. exact Hn.
    + apply K1. exact Hn.
Qed.

Lemma driver_touches_only_its_paths_witness :
  exists r w',
    main no_truetype (with_node "notes.txt" stray_file fresh_world) = (r, w')
    /\ fs w' !! "notes.txt" = Some stray_file.
Proof.
  destruct (main no_truetype (with_node "notes.txt" stray_file fresh_world)) as [r w'] eqn:H.
  exists r, w'. split; [reflexivity|].
  apply (proj2 (driver_touches_only_its_paths no_truetype _ w' r H));
    [discriminate | discriminate | reflexivity].
Defined.

(** X8: a run of the driver that succeeded can be repeated: the second run
    succeeds as well, leaves the file system exactly as the first one left
    it, and prints the message once more. *)
Theorem driver_rerun_changes_nothing (env : font_env) (w w1 : world) :
  main env w = (Ok (), w1) ->
  main env w1 = (Ok (), {| fs := fs w1; stdout := stdout w1 ++ [done_message] |}).
Proof.
  intros H.
  destruct (main_trace env w (Ok ()) w1 H)
    as (i1 & i2 & r1 & u1 & r2 & u2 & r3 & u3 & E1 & E2 & Mk & S1 & S2 & F & OkAll & _).
  destruct (OkAll eq_refl) as (-> & -> & -> & _). cbn [is_ok] in F.
  destruct (makedirs_facts w u1 (Ok ()) Mk) as (_ & _ & _ & D1 & _).
  destruct (makedirs_frame w u1 (Ok ()) Mk) as (_ & _ & P1).
  destruct (save_facts i1 icon_192_path u1 u2 (Ok ()) (or_introl eq_refl) S1) as (_ & W2 & _).
  destruct (save_facts i2 icon_512_path u2 u3 (Ok ()) (or_intror eq_refl) S2) as (_ & W3 & _).
  specialize (D1 eq_refl). destruct (P1 eq_refl) as [pn Pn].
  specialize (W2 eq_refl). specialize (W3 eq_refl).
  assert (L512 : fs w1 !! icon_512_path = Some (File "PNG" i2)).
  { rewrite F, W3. icon_lookups. reflexivity. }
  assert (L192 : fs w1 !! icon_192_path = Some (File "PNG" i1)).
  { rewrite F, W3, W2. icon_lookups. reflexivity. }
  assert (Ldir : fs w1 !! icons_dir = Some Directory).
  { rewrite F, W3, W2. icon_lookups. exact D1. }
  assert (Lpub : fs w1 !! "public" = Some pn).
  { rewrite F, W3, W2. icon_lookups. exact Pn. }
  clear H Mk S1 S2 F W2 W3 D1 Pn OkAll P1 u1 u2 u3.
  rewrite (main_unfolded env i1 i2 w1 E1 E2). clear E1 E2.
  rewrite os_makedirs_icons, Lpub, Ldir.
  assert (Mk : (match pn with
                | Directory => (Ok (), w1)
                | File _ _ => (Ok (), w1)
                end : result () * world) = (Ok (), w1)) by (destruct pn; reflexivity).
  rewrite Mk. clear Mk.
  rewrite (Image_save_icon i1 icon_192_path w1 (or_introl eq_refl)), L192, Ldir.
  rewrite (Image_save_icon i2 icon_512_path _ (or_intror eq_refl)).
  unfold with_node at 1 2 3. cbn [fs stdout].
  rewrite (lookup_insert_ne (fs w1) icon_192_path icon_512_path) by discriminate.
  rewrite (lookup_insert_ne (fs w1) icon_192_path icons_dir) by discriminate.
  rewrite L512, Ldir. unfold with_node. cbn [fs stdout].
  rewrite (insert_id (fs w1) icon_192_path _ L192).
  rewrite (insert_id (fs w1) icon_512_path _ L512). reflexivity.
Qed.

Lemma driver_rerun_changes_nothing_witness :
  exists w1,
    main no_truetype fresh_world = (Ok (), w1)
    /\ main no_truetype w1 = (Ok (), {| fs := fs w1; stdout := stdout w1 ++ [done_message] |}).
Proof.
  destruct (main_succeeds no_truetype fresh_world) as [w1 M];
    [left; reflexivity | left; reflexivity | discriminate | discriminate |].
  exists w1. split; [exact M|].
  exact (driver_rerun_changes_nothing no_truetype fresh_world w1 M).
Defined.

(** X9: a regular file in the place of a directory stops the driver before
    anything is rendered to disk: with a file at [public/icons] it raises
    [FileExistsError] ([exist_ok] only accepts a directory), with a file at
    [public] and nothing at [public/icons] it raises [NotADirectoryError]
    and leaves the world as it was; either way nothing is printed and the
    icon paths are left alone. *)
Theorem driver_stops_at_blocked_directory (env : font_env) (w : world) :
  (forall format content, fs w !! icons_dir = Some (File format content) ->
     exists w', main env w = (Raise FileExistsError, w')
                /\ stdout w' = stdout w
                /\ fs w' !! icon_192_path = fs w !! icon_192_path
                /\ fs w' !! icon_512_path = fs w !! icon_512_path)
  /\ (forall format content, fs w !! "public" = Some (File format content) ->
        fs w !! icons_dir = None ->
        main env w = (Raise NotADirectoryError, w)).
Proof.
  destruct (both_icons_render env) as (i1 & i2 & E1 & E2).
  pose proof (main_unfolded env i1 i2 w E1 E2) as M. clear E1 E2.
  rewrite os_makedirs_icons in M.
  split.
  - intros format content B. rewrite B in M.
    destruct (fs w !! "public") as [[|fa ca]|] eqn:A; rewrite M; eexists;
      (split; [reflexivity|]); icon_lookups; repeat split; reflexivity.
  - intros format content A B. rewrite A, B in M. exact M.
Qed.

Lemma driver_stops_at_blocked_directory_witness :
  main no_truetype (with_node "public" stray_file fresh_world)
  = (Raise NotADirectoryError, with_node "public" stray_file fresh_world).
Proof.
  exact (proj2 (driver_stops_at_blocked_directory no_truetype
                  (with_node "public" stray_file fresh_world))
           "PNG"%string _ eq_refl eq_refl).
Defined.
